(** * Alert lifecycle of the cloud monitor (q2.py)

    A shallow embedding of [CloudMonitor] and [Alert] from q2.py, and the
    properties of the alert life cycle stated over it.

    Conventions of the embedding.
    - A [datetime] is the number of microseconds since the epoch ([Z]); a
      [timedelta] is a number of microseconds, [timedelta(seconds=n)] is
      [n * 1000000].
    - Every [datetime.now()] is a separate read of the wall clock.  The clock
      is an oracle: the world holds the infinite sequence of the values that
      the successive reads return, and the number of reads done so far.
      [random.random()] and [secrets.token_hex] are oracles of the same kind.
    - Latency and failure rate are rationals ([Q]): every finite Python
      [int] or [float] is one, and Python compares them with the integer
      thresholds exactly.
    - [print] appends a structured line to the world's [stdout]; the line
      keeps the values that the f-string interpolates (the time stamp of
      [get_time()] unformatted) instead of the rendered text.
    - A failing dictionary subscript raises [KeyError], a [pop] from an empty
      list raises [IndexError]: the monad is state over errors. *)

From Stdlib Require Import ZArith QArith List String Ascii Bool Lia Lqa.
From ExtLib Require Import Structures.Monad Structures.MonadState Structures.MonadExc.
From ExtLib Require Import Data.Monads.StateMonad Data.Monads.EitherMonad.
Import ListNotations.
Import MonadNotation.
Local Open Scope monad_scope.
Local Open Scope Z_scope.
Local Open Scope string_scope.
Local Open Scope list_scope.

#[local] Existing Instance Monad_stateT.

(** ** Severity levels *)

(** [class AlertLevel(Enum)] *)
Inductive AlertLevel : Type :=
  | P0
  | P1
  | P2
  | NO_ALERT.

(** [AlertLevel.value] *)
Definition value (l : AlertLevel) : string :=
  match l with
  | P0 => "P0 (Critical)"
  | P1 => "P1 (Major)"
  | P2 => "P2 (Minor)"
  | NO_ALERT => "No Alert"
  end.

(** [==] on enum members is identity. *)
Definition AlertLevel_eqb (a b : AlertLevel) : bool :=
  match a, b with
  | P0, P0 | P1, P1 | P2, P2 | NO_ALERT, NO_ALERT => true
  | _, _ => false
  end.

(** The rank of a severity in the order NONE < LOW < MAJOR < CRITICAL
    (P2 is LOW, P1 is MAJOR, P0 is CRITICAL).  The code has no such function:
    it compares the [value] strings.  The rank is what the properties are
    stated with. *)
Definition severity_rank (l : AlertLevel) : Z :=
  match l with
  | NO_ALERT => 0
  | P2 => 1
  | P1 => 2
  | P0 => 3
  end.

(** ** Python dictionaries and exceptions *)

Inductive Exn : Type :=
  | KeyError
  | IndexError.

Section Dict.
Context {K V : Type} (eqb : K -> K -> bool).

(** [d[k]] on a dictionary literal, [None] when the key is missing. *)
Fixpoint dict_get (d : list (K * V)) (k : K) : option V :=
  match d with
  | [] => None
  | (k', v) :: d' => if eqb k k' then Some v else dict_get d' k
  end.

End Dict.

(** [ALERT_THRESHOLDS] *)
Definition ALERT_THRESHOLDS : list (AlertLevel * list (string * Z)) :=
  [ (P0, [("latency", 2000); ("failure_rate", 10)]);
    (P1, [("latency", 1000); ("failure_rate", 5)]);
    (P2, [("latency", 500); ("failure_rate", 2)]) ].

(** [ALERT_REPEAT_TIMES], in seconds *)
Definition ALERT_REPEAT_TIMES : list (AlertLevel * Z) :=
  [ (P0, 2); (P1, 12); (P2, 48) ].

(** [timedelta(seconds=n)] *)
Definition timedelta_seconds (n : Z) : Z := n * 1000000.

(** [x > n] for a number [x] and an integer [n]. *)
Definition Qgtb (x : Q) (n : Z) : bool := negb (Qle_bool x (inject_Z n)).

(** ** The world *)

(** [class Alert] *)
Record Alert : Type := mkAlert {
  alert_level : AlertLevel;
  trigger_time : Z;
  last_notified : Z
}.

(** The f-string of [log_status]: time stamp, latency, failure rate and
    level. *)
Record LogMessage : Type := mkLogMessage {
  log_timestamp : Z;
  log_latency : Q;
  log_failure_rate : Q;
  log_level : AlertLevel
}.

(** The lines written by [print]. *)
Inductive Line : Type :=
  | LineResolved (t : Z) (l : AlertLevel)
  | LineNoActive (t : Z)
  | LineEmail (t : Z) (l : AlertLevel) (recipient : string)
  | LineLog (m : LogMessage)
  | LinePRMerged (t : Z) (commit_hash : string)
  | LineTriggered (t : Z) (l : AlertLevel)
  | LineUpgrading (t : Z) (l : AlertLevel)
  | LineResending (t : Z) (l : AlertLevel).

(** The fields of [CloudMonitor] ([current_alert], [log_history]), the
    standard output and the oracles. *)
Record World : Type := mkWorld {
  current_alert : option Alert;
  log_history : list LogMessage;
  stdout : list Line;
  clock : nat -> Z;
  clock_reads : nat;
  rng : nat -> Q;
  rng_draws : nat;
  entropy : nat -> string;
  entropy_draws : nat
}.

Definition M : Type -> Type := stateT World (sum Exn).

Definition run {A : Type} (m : M A) (w : World) : Exn + (A * World) :=
  runStateT m w.

(** [d[k]], raising [KeyError]. *)
Definition subscript {K V : Type} (eqb : K -> K -> bool)
    (d : list (K * V)) (k : K) : M V :=
  match dict_get eqb d k with
  | Some v => ret v
  | None => raise KeyError
  end.

(** [datetime.now()] *)
Definition datetime_now : M Z :=
  w <- get ;;
  put (mkWorld (current_alert w) (log_history w) (stdout w)
         (clock w) (S (clock_reads w))
         (rng w) (rng_draws w) (entropy w) (entropy_draws w)) ;;
  ret (clock w (clock_reads w)).

(** [random.random()] *)
Definition random_random : M Q :=
  w <- get ;;
  put (mkWorld (current_alert w) (log_history w) (stdout w)
         (clock w) (clock_reads w)
         (rng w) (S (rng_draws w)) (entropy w) (entropy_draws w)) ;;
  ret (rng w (rng_draws w)).

(** [secrets.token_hex(20)] *)
Definition token_hex : M string :=
  w <- get ;;
  put (mkWorld (current_alert w) (log_history w) (stdout w)
         (clock w) (clock_reads w)
         (rng w) (rng_draws w) (entropy w) (S (entropy_draws w))) ;;
  ret (entropy w (entropy_draws w)).

(** [print(line)] *)
Definition print (line : Line) : M unit :=
  w <- get ;;
  put (mkWorld (current_alert w) (log_history w) (stdout w ++ [line])
         (clock w) (clock_reads w)
         (rng w) (rng_draws w) (entropy w) (entropy_draws w)).

(** [self.current_alert] *)
Definition get_current_alert : M (option Alert) :=
  w <- get ;; ret (current_alert w).

(** [self.current_alert = a] *)
Definition set_current_alert (a : option Alert) : M unit :=
  w <- get ;;
  put (mkWorld a (log_history w) (stdout w)
         (clock w) (clock_reads w)
         (rng w) (rng_draws w) (entropy w) (entropy_draws w)).

(** [self.log_history = l] *)
Definition set_log_history (l : list LogMessage) : M unit :=
  w <- get ;;
  put (mkWorld (current_alert w) l (stdout w)
         (clock w) (clock_reads w)
         (rng w) (rng_draws w) (entropy w) (entropy_draws w)).

(** [get_time()]: reads the clock. *)
Definition get_time : M Z := datetime_now.

(** [generate_commit_hash()] *)
Definition generate_commit_hash : M string := token_hex.

(** ** class Alert *)

(** [Alert.__init__]: two reads of the clock. *)
Definition Alert_init (level : AlertLevel) : M Alert :=
  t1 <- datetime_now ;;
  t2 <- datetime_now ;;
  ret (mkAlert level t1 t2).

(** [Alert.update_last_notified] *)
Definition update_last_notified (a : Alert) : M Alert :=
  t <- datetime_now ;;
  ret (mkAlert (alert_level a) (trigger_time a) t).

(** [Alert.time_since_trigger] *)
Definition time_since_trigger (a : Alert) : M Z :=
  t <- datetime_now ;;
  ret (t - trigger_time a).

(** [Alert.time_since_last_notified] *)
Definition time_since_last_notified (a : Alert) : M Z :=
  t <- datetime_now ;;
  ret (t - last_notified a).

(** ** class CloudMonitor *)

(** [CloudMonitor.__init__], in a world with the given oracles. *)
Definition CloudMonitor_init (clk : nat -> Z) (rnd : nat -> Q)
    (ent : nat -> string) : World :=
  mkWorld None [] [] clk 0 rnd 0 ent 0.

(** [ALERT_THRESHOLDS[level][key]] *)
Definition threshold (level : AlertLevel) (key : string) : M Z :=
  row <- subscript AlertLevel_eqb ALERT_THRESHOLDS level ;;
  subscript String.eqb row key.

(** [CloudMonitor.classify_alert] *)
Definition classify_alert (latency failure_rate : Q) : M AlertLevel :=
  l0 <- threshold P0 "latency" ;;
  if Qgtb latency l0 then ret P0 else
  f0 <- threshold P0 "failure_rate" ;;
  if Qgtb failure_rate f0 then ret P0 else
  l1 <- threshold P1 "latency" ;;
  if Qgtb latency l1 then ret P1 else
  f1 <- threshold P1 "failure_rate" ;;
  if Qgtb failure_rate f1 then ret P1 else
  l2 <- threshold P2 "latency" ;;
  if Qgtb latency l2 then ret P2 else
  f2 <- threshold P2 "failure_rate" ;;
  if Qgtb failure_rate f2 then ret P2 else
  ret NO_ALERT.

(** [CloudMonitor.resolve_alert] *)
Definition resolve_alert : M unit :=
  cur <- get_current_alert ;;
  match cur with
  | Some a =>
      t <- get_time ;;
      print (LineResolved t (alert_level a)) ;;
      set_current_alert None
  | None =>
      t <- get_time ;;
      print (LineNoActive t)
  end.

(** [CloudMonitor.send_email] *)
Definition send_email (level : AlertLevel) (recipient : string) : M unit :=
  t <- get_time ;;
  print (LineEmail t level recipient).

(** [list.pop(0)], raising [IndexError] on the empty list. *)
Definition pop0 {A : Type} (l : list A) : M (list A) :=
  match l with
  | [] => raise IndexError
  | _ :: l' => ret l'
  end.

(** The bound on the length of [log_history]: [90 * 24 * 12]. *)
Definition LOG_CAPACITY : Z := 90 * 24 * 12.

(** [CloudMonitor.log_status] *)
Definition log_status (latency failure_rate : Q) (level : AlertLevel) : M unit :=
  timestamp <- get_time ;;
  let log_message := mkLogMessage timestamp latency failure_rate level in
  print (LineLog log_message) ;;
  w <- get ;;
  set_log_history (log_history w ++ [log_message]) ;;
  w <- get ;;
  if Z.of_nat (List.length (log_history w)) >? LOG_CAPACITY then
    l <- pop0 (log_history w) ;;
    set_log_history l
  else ret tt.

(** [CloudMonitor.simulate_pr_merge] *)
Definition simulate_pr_merge : M unit :=
  commit_hash <- generate_commit_hash ;;
  t <- get_time ;;
  print (LinePRMerged t commit_hash).

Definition primary_recipient : string := "team@company.com".
Definition secondary_recipient : string := "boss@company.com".

(** [x < q] for the draw of [random.random()]. *)
Definition Qltb (x q : Q) : bool := negb (Qle_bool q x).

(** The first [if]/[elif] chain of [handle_alerts], entered with a level
    other than [NO_ALERT]: open, upgrade or resend. *)
Definition open_upgrade_or_resend (new_alert_level : AlertLevel) : M unit :=
  cur <- get_current_alert ;;
  match cur with
  | None =>
      t <- get_time ;;
      print (LineTriggered t new_alert_level) ;;
      a <- Alert_init new_alert_level ;;
      set_current_alert (Some a) ;;
      send_email new_alert_level primary_recipient
  | Some a =>
      if String.ltb (value new_alert_level) (value (alert_level a)) then
        t <- get_time ;;
        print (LineUpgrading t new_alert_level) ;;
        a' <- Alert_init new_alert_level ;;
        set_current_alert (Some a') ;;
        send_email new_alert_level primary_recipient
      else if AlertLevel_eqb new_alert_level (alert_level a) then
        since <- time_since_last_notified a ;;
        secs <- subscript AlertLevel_eqb ALERT_REPEAT_TIMES new_alert_level ;;
        if since >=? timedelta_seconds secs then
          t <- get_time ;;
          print (LineResending t new_alert_level) ;;
          a' <- update_last_notified a ;;
          set_current_alert (Some a') ;;
          send_email new_alert_level primary_recipient
        else ret tt
      else ret tt
  end.

(** The check for a long-standing alert in [handle_alerts]. *)
Definition notify_boss : M unit :=
  cur <- get_current_alert ;;
  match cur with
  | None => ret tt
  | Some a =>
      since <- time_since_trigger a ;;
      secs <- subscript AlertLevel_eqb ALERT_REPEAT_TIMES (alert_level a) ;;
      if since >=? timedelta_seconds (secs * 5) then
        send_email (alert_level a) secondary_recipient
      else ret tt
  end.

(** The random merge of a fix at the end of [handle_alerts]. *)
Definition maybe_pr_merge : M unit :=
  cur <- get_current_alert ;;
  match cur with
  | None => ret tt
  | Some _ =>
      r <- random_random ;;
      if Qltb r (1 # 10) then simulate_pr_merge else ret tt
  end.

(** [CloudMonitor.handle_alerts] *)
Definition handle_alerts (latency failure_rate : Q) : M unit :=
  new_alert_level <- classify_alert latency failure_rate ;;
  if AlertLevel_eqb new_alert_level NO_ALERT then
    cur <- get_current_alert ;;
    match cur with
    | Some _ => resolve_alert
    | None => ret tt
    end
  else
    open_upgrade_or_resend new_alert_level ;;
    notify_boss ;;
    maybe_pr_merge.

(** One turn of the loop of [monitor_system] on the sample that
    [generate_metrics] returned. *)
Definition monitor_tick (sample : Q * Q) : M unit :=
  let (latency, failure_rate) := sample in
  level <- classify_alert latency failure_rate ;;
  log_status latency failure_rate level ;;
  handle_alerts latency failure_rate.

(** The loop of [monitor_system] over the samples of finitely many turns. *)
Fixpoint monitor_loop (samples : list (Q * Q)) : M unit :=
  match samples with
  | [] => ret tt
  | s :: rest => monitor_tick s ;; monitor_loop rest
  end.

(** ** Observations on a run *)

(** All the e-mails among the lines, to any recipient. *)
Fixpoint emails (out : list Line) : list (AlertLevel * string) :=
  match out with
  | [] => []
  | LineEmail _ l r :: out' => (l, r) :: emails out'
  | _ :: out' => emails out'
  end.

(** The levels of the e-mails to [recipient] among the lines. *)
Definition emails_to (recipient : string) (out : list Line) : list AlertLevel :=
  map fst (filter (fun e => String.eqb (snd e) recipient) (emails out)).

(** The log messages among the lines, in the order printed. *)
Fixpoint logged (out : list Line) : list LogMessage :=
  match out with
  | [] => []
  | LineLog m :: out' => m :: logged out'
  | _ :: out' => logged out'
  end.

(** The levels of the alerts constructed: [handle_alerts] prints a
    "Triggered" line right before each [Alert(...)]. *)
Fixpoint created (out : list Line) : list AlertLevel :=
  match out with
  | [] => []
  | LineTriggered _ l :: out' => l :: created out'
  | LineUpgrading _ l :: out' => l :: created out'
  | _ :: out' => created out'
  end.

(** The call [m] ends normally in world [w'] and the lines it printed are
    [out]. *)
Definition returns (m : M unit) (w w' : World) (out : list Line) : Prop :=
  run m w = inr (tt, w') /\ stdout w' = stdout w ++ out.

(** Every open alert has a level that [ALERT_REPEAT_TIMES] covers. *)
Definition alert_ok (w : World) : Prop :=
  forall a, current_alert w = Some a -> alert_level a <> NO_ALERT.

(** The value that the [i]-th read of the clock from now on returns. *)
Definition tick (w : World) (i : nat) : Z := clock w (i + clock_reads w)%nat.

(** What a call leaves alone: it only appends [out] to the output, reads the
    same clock further on, and keeps the log. *)
Definition frame (w w' : World) (out : list Line) : Prop :=
  stdout w' = stdout w ++ out /\
  clock w' = clock w /\
  (clock_reads w <= clock_reads w')%nat /\
  log_history w' = log_history w.

(** The time stamps of the open alert are values that the clock has
    returned, the trigger time at a read no later than the read of the last
    notification. *)
Definition stamped (w : World) : Prop :=
  forall a, current_alert w = Some a ->
    exists i k : nat, (i <= k < clock_reads w)%nat /\
      trigger_time a = clock w i /\ last_notified a = clock w k.

(** From the reads of this call on, the clock shows [now]. *)
Definition clock_at (now : Z) (w : World) : Prop :=
  forall i : nat, (clock_reads w <= i)%nat -> clock w i = now.

(** The clock never runs backwards. *)
Definition clock_monotone (w : World) : Prop :=
  forall i j : nat, (i <= j)%nat -> clock w i <= clock w j.

(** [resend_interval[l]] as a [timedelta]; zero for [NO_ALERT], which the
    table does not cover. *)
Definition resend_interval (l : AlertLevel) : Z :=
  match dict_get AlertLevel_eqb ALERT_REPEAT_TIMES l with
  | Some secs => timedelta_seconds secs
  | None => 0
  end.

(** The e-mail to the boss about an alert of level [l] triggered [since]
    ago, when it is due. *)
Definition boss_due (since : Z) (l : AlertLevel) : list (AlertLevel * string) :=
  if since >=? resend_interval l * 5 then [(l, secondary_recipient)] else [].

(** The log of [log_history] is the last [LOG_CAPACITY] messages printed. *)
Definition log_is_tail (w : World) : Prop :=
  log_history w =
  skipn (List.length (logged (stdout w)) - Z.to_nat LOG_CAPACITY) (logged (stdout w)).

(** The sample that a log message records. *)
Definition sample_of (m : LogMessage) : Q * Q := (log_latency m, log_failure_rate m).

(** The level [l] has a threshold in [ALERT_THRESHOLDS] that the sample
    strictly exceeds. *)
Definition exceeded (l : AlertLevel) (latency failure_rate : Q) : Prop :=
  match dict_get AlertLevel_eqb ALERT_THRESHOLDS l with
  | Some row =>
      match dict_get String.eqb row "latency",
            dict_get String.eqb row "failure_rate" with
      | Some tl, Some tf =>
          (inject_Z tl < latency)%Q \/ (inject_Z tf < failure_rate)%Q
      | _, _ => False
      end
  | None => False
  end.

(** A world for examples: the clock stands at [now], the alert is [a]. *)
Definition world_at (now : Z) (a : option Alert) : World :=
  mkWorld a [] [] (fun _ => now) 0 (fun _ => 1%Q) 0 (fun _ => "") 0.

(** The pure reading of [classify_alert]. *)
Definition classify (latency failure_rate : Q) : AlertLevel :=
  if Qgtb latency 2000 || Qgtb failure_rate 10 then P0
  else if Qgtb latency 1000 || Qgtb failure_rate 5 then P1
  else if Qgtb latency 500 || Qgtb failure_rate 2 then P2
  else NO_ALERT.

(** ** class MetricSimulator and monitor_system *)

(** [class MetricSimulator]: the two flags of a persistent issue. *)
Record MetricSimulator : Type := mkMetricSimulator {
  latency_flaky : bool;
  failure_rate_flaky : bool
}.

(** The whole program: the monitor with its world, the simulator, and the
    oracle of [np.random.poisson], whose [k]-th draw with mean [lam] is
    [poisson k lam]. *)
Record System : Type := mkSystem {
  cloud_monitor : World;
  metric_simulator : MetricSimulator;
  poisson : nat -> Z -> Z;
  poisson_draws : nat
}.

Definition MS : Type -> Type := stateT System (sum Exn).

Definition run_system {A : Type} (m : MS A) (s : System) : Exn + (A * System) :=
  runStateT m s.

(** A computation of the monitor's world, run inside the system. *)
Definition in_world {A : Type} (m : M A) : MS A :=
  mkStateT (fun s : System =>
    match run m (cloud_monitor s) with
    | inl e => inl e
    | inr (a, w) =>
        inr (a, mkSystem w (metric_simulator s) (poisson s) (poisson_draws s))
    end).

(** [np.random.poisson(lam)] *)
Definition np_random_poisson (lam : Z) : MS Z :=
  s <- get ;;
  put (mkSystem (cloud_monitor s) (metric_simulator s) (poisson s)
         (S (poisson_draws s))) ;;
  ret (poisson s (poisson_draws s) lam).

(** [self.latency_flaky = b] *)
Definition set_latency_flaky (b : bool) : MS unit :=
  s <- get ;;
  put (mkSystem (cloud_monitor s)
         (mkMetricSimulator b (failure_rate_flaky (metric_simulator s)))
         (poisson s) (poisson_draws s)).

(** [self.failure_rate_flaky = b] *)
Definition set_failure_rate_flaky (b : bool) : MS unit :=
  s <- get ;;
  put (mkSystem (cloud_monitor s)
         (mkMetricSimulator (latency_flaky (metric_simulator s)) b)
         (poisson s) (poisson_draws s)).

(** The first half of [generate_metrics]: the latency. *)
Definition generate_latency : MS Z :=
  s <- get ;;
  if negb (latency_flaky (metric_simulator s)) then
    r <- in_world random_random ;;
    if Qltb r (2 # 10) then
      r' <- in_world random_random ;;
      if Qltb r' (5 # 10) then
        latency <- np_random_poisson 1200 ;;
        set_latency_flaky false ;;
        ret latency
      else
        latency <- np_random_poisson 2000 ;;
        set_latency_flaky true ;;
        ret latency
    else np_random_poisson 300
  else
    latency <- np_random_poisson 3500 ;;
    r <- in_world random_random ;;
    (if Qltb r (3 # 10) then set_latency_flaky false else ret tt) ;;
    ret latency.

(** Integer division of [n] by [d > 0], rounded to the nearest integer,
    ties to the even one. *)
Definition round_half_even (n d : Z) : Z :=
  let q := n / d in
  let r := n mod d in
  if Z.ltb (2 * r) d then q
  else if Z.ltb d (2 * r) then q + 1
  else if Z.even q then q else q + 1.

(** The integer part of the binary logarithm of [n / d], for [n, d > 0]. *)
Definition log2_ratio (n d : Z) : Z :=
  let e := Z.log2 n - Z.log2 d in
  let reached :=
    if Z.leb 0 e then Z.leb (d * 2 ^ e) n else Z.leb d (n * 2 ^ (- e)) in
  if reached then e else e - 1.

(** The double nearest to [x] (53 bits of precision, ties to even), as a
    rational.  The exponent is not bounded: there is neither overflow nor
    gradual underflow, which the conversions of 64-bit integers and their
    quotients by 100 never meet. *)
Definition binary64 (x : Q) : Q :=
  let n := Z.abs (Qnum x) in
  let d := Z.pos (Qden x) in
  if Z.eqb n 0 then 0%Q else
  let sh := 52 - log2_ratio n d in
  let v :=
    if Z.leb 0 sh
    then Qmake (round_half_even (n * 2 ^ sh) d) (Z.to_pos (2 ^ sh))
    else inject_Z (round_half_even n (d * 2 ^ (- sh)) * 2 ^ (- sh)) in
  if Z.ltb (Qnum x) 0 then Qopp v else v.

(** [k / 100.0] for a draw [k]: the integer is converted to a double and
    divided by the double 100, each step rounded to the nearest double. *)
Definition percent (k : Z) : Q :=
  binary64 (Qdiv (binary64 (inject_Z k)) (100 # 1)).

(** The draws from [0] to [n - 1]. *)
Definition draws_below (n : Z) : list Z := map Z.of_nat (seq 0 (Z.to_nat n)).

(** The failure rate of the draw [k] exceeds the thresholds 2, 5 and 10 of
    [ALERT_THRESHOLDS] exactly when [k] exceeds 200, 500 and 1000. *)
Definition percent_scaled (k : Z) : bool :=
  Bool.eqb (Qgtb (percent k) 2) (Z.ltb 200 k) &&
  Bool.eqb (Qgtb (percent k) 5) (Z.ltb 500 k) &&
  Bool.eqb (Qgtb (percent k) 10) (Z.ltb 1000 k).

(** The second half of [generate_metrics]: the failure rate. *)
Definition generate_failure_rate : MS Q :=
  s <- get ;;
  if negb (failure_rate_flaky (metric_simulator s)) then
    r <- in_world random_random ;;
    if Qltb r (2 # 10) then
      r' <- in_world random_random ;;
      if Qltb r' (5 # 10) then
        k <- np_random_poisson 8 ;;
        set_failure_rate_flaky false ;;
        ret (percent k)
      else
        k <- np_random_poisson 10 ;;
        set_failure_rate_flaky true ;;
        ret (percent k)
    else
      k <- np_random_poisson 1 ;;
      ret (percent k)
  else
    k <- np_random_poisson 15 ;;
    r <- in_world random_random ;;
    (if Qltb r (3 # 10) then set_failure_rate_flaky false else ret tt) ;;
    ret (percent k).

(** [MetricSimulator.generate_metrics] *)
Definition generate_metrics : MS (Q * Q) :=
  latency <- generate_latency ;;
  failure_rate <- generate_failure_rate ;;
  ret (inject_Z latency, failure_rate).

(** The loop of [monitor_system], for the given number of turns. *)
Fixpoint monitor_system_loop (turns : nat) : MS unit :=
  match turns with
  | O => ret tt
  | S n =>
      sample <- generate_metrics ;;
      in_world (monitor_tick sample) ;;
      monitor_system_loop n
  end.

(** The start of [monitor_system]: a new simulator and a new monitor. *)
Definition monitor_system_init (clk : nat -> Z) (rnd : nat -> Q)
    (ent : nat -> string) (poi : nat -> Z -> Z) : System :=
  mkSystem (CloudMonitor_init clk rnd ent) (mkMetricSimulator false false) poi 0.

(** The world [w'] is [w] after some draws of [random.random()]. *)
Definition drew_random (w w' : World) : Prop :=
  current_alert w' = current_alert w /\
  log_history w' = log_history w /\
  stdout w' = stdout w /\
  clock w' = clock w /\
  clock_reads w' = clock_reads w /\
  rng w' = rng w /\
  (rng_draws w <= rng_draws w')%nat /\
  entropy w' = entropy w /\
  entropy_draws w' = entropy_draws w.

(** The lines of a merged fix among the lines. *)
Fixpoint merged (out : list Line) : list string :=
  match out with
  | [] => []
  | LinePRMerged _ h :: out' => h :: merged out'
  | _ :: out' => merged out'
  end.

(** The number of "no active alert" lines among the lines. *)
Fixpoint no_active (out : list Line) : nat :=
  match out with
  | [] => 0%nat
  | LineNoActive _ :: out' => S (no_active out')
  | _ :: out' => no_active out'
  end.

(** The random oracles are where they were. *)
Definition same_draws (w w' : World) : Prop :=
  rng w' = rng w /\ rng_draws w' = rng_draws w /\
  entropy w' = entropy w /\ entropy_draws w' = entropy_draws w.

(** The lines that the first phase of [handle_alerts] can print for a sample
    of level [l]: nothing, or a line about the alert followed by the e-mail
    to the team. *)
Definition first_phase_lines (l : AlertLevel) (out : list Line) : Prop :=
  out = [] \/
  exists t t',
    out = [LineTriggered t l; LineEmail t' l primary_recipient] \/
    out = [LineUpgrading t l; LineEmail t' l primary_recipient] \/
    out = [LineResending t l; LineEmail t' l primary_recipient].

(** Tactics: run a phase of the monadic code by computation, and close the
    frame conditions of the world that results. *)
Ltac run_phase := unfold run; cbn.

Ltac close_frame :=
  unfold frame, tick; cbn; rewrite <- ?app_assoc, ?app_nil_r; cbn;
  repeat split; auto; lia.

(** ** Running the monad *)

Lemma run_bind {A B : Type} (m : M A) (f : A -> M B) (w : World) :
  run (bind m f) w =
  match run m w with
  | inl e => inl e
  | inr (a, w') => run (f a) w'
  end.
Proof.
  unfold run. cbn. destruct (runStateT m w) as [e | [a w']]; reflexivity.
Qed.

Lemma run_seq (m1 m2 : M unit) (w w1 : World) :
  run m1 w = inr (tt, w1) -> run (m1 ;; m2) w = run m2 w1.
Proof. intros H. rewrite run_bind, H. reflexivity. Qed.

Lemma frame_refl (w : World) : frame w w [].
Proof. unfold frame. rewrite app_nil_r. auto. Qed.

Lemma frame_trans (w w1 w2 : World) (o1 o2 : list Line) :
  frame w w1 o1 -> frame w1 w2 o2 -> frame w w2 (o1 ++ o2).
Proof.
  unfold frame. intros (H1 & H2 & H3 & H4) (K1 & K2 & K3 & K4).
  rewrite K1, H1, K2, K4, app_assoc. repeat split; auto. lia.
Qed.

Lemma emails_app (o1 o2 : list Line) : emails (o1 ++ o2) = emails o1 ++ emails o2.
Proof.
  induction o1 as [| x o1 IH]; [reflexivity |].
  destruct x; cbn; rewrite ?IH; reflexivity.
Qed.

Lemma created_app (o1 o2 : list Line) : created (o1 ++ o2) = created o1 ++ created o2.
Proof.
  induction o1 as [| x o1 IH]; [reflexivity |].
  destruct x; cbn; rewrite ?IH; reflexivity.
Qed.

Lemma logged_app (o1 o2 : list Line) : logged (o1 ++ o2) = logged o1 ++ logged o2.
Proof.
  induction o1 as [| x o1 IH]; [reflexivity |].
  destruct x; cbn; rewrite ?IH; reflexivity.
Qed.

Lemma clock_at_frame (now : Z) (w w' : World) (out : list Line) :
  clock_at now w -> frame w w' out -> clock_at now w'.
Proof.
  intros H (_ & Hc & Hr & _) i Hi. rewrite Hc. apply H. lia.
Qed.

Lemma clock_at_tick (now : Z) (w : World) (i : nat) :
  clock_at now w -> tick w i = now.
Proof. intros H. apply H. lia. Qed.

(** ** classify_alert *)

Lemma classify_alert_run (latency failure_rate : Q) (w : World) :
  run (classify_alert latency failure_rate) w =
  inr (classify latency failure_rate, w).
Proof.
  unfold classify_alert, classify, run. cbn.
  destruct (Qgtb latency 2000); cbn; [reflexivity |].
  destruct (Qgtb failure_rate 10); cbn; [reflexivity |].
  destruct (Qgtb latency 1000); cbn; [reflexivity |].
  destruct (Qgtb failure_rate 5); cbn; [reflexivity |].
  destruct (Qgtb latency 500); cbn; [reflexivity |].
  destruct (Qgtb failure_rate 2); cbn; reflexivity.
Qed.

Lemma Qgtb_spec (x : Q) (n : Z) : Qgtb x n = true <-> (inject_Z n < x)%Q.
Proof.
  unfold Qgtb. rewrite negb_true_iff, <- not_true_iff_false, Qle_bool_iff.
  split; [apply Qnot_le_lt | apply Qlt_not_le].
Qed.

(** The comparison of the [value] strings agrees with the rank on the levels
    that an alert can have. *)
Lemma value_ltb_rank (new cur : AlertLevel) :
  new <> NO_ALERT -> cur <> NO_ALERT ->
  String.ltb (value new) (value cur) =
  Z.ltb (severity_rank cur) (severity_rank new).
Proof. destruct new, cur; intros; try congruence; reflexivity. Qed.

Lemma AlertLevel_eqb_eq (a b : AlertLevel) : AlertLevel_eqb a b = true <-> a = b.
Proof. destruct a, b; cbn; split; intros; congruence. Qed.

Lemma resend_interval_subscript (l : AlertLevel) (w : World) :
  l <> NO_ALERT ->
  exists secs, run (subscript AlertLevel_eqb ALERT_REPEAT_TIMES l) w = inr (secs, w)
               /\ resend_interval l = timedelta_seconds secs.
Proof.
  intros Hl. destruct l; try congruence; eexists; split; reflexivity.
Qed.

(** ** The phases of handle_alerts *)

(** No alert is open: a new one is created and the team is notified. *)
Lemma open_run (w : World) (l : AlertLevel) :
  current_alert w = None ->
  exists w',
    run (open_upgrade_or_resend l) w = inr (tt, w') /\
    current_alert w' = Some (mkAlert l (tick w 1) (tick w 2)) /\
    frame w w' [LineTriggered (tick w 0) l; LineEmail (tick w 3) l primary_recipient] /\
    clock_reads w' = (4 + clock_reads w)%nat.
Proof.
  intros H. unfold open_upgrade_or_resend. run_phase. rewrite H. cbn.
  eexists. split; [reflexivity |]. split; [reflexivity |].
  split; [close_frame | reflexivity].
Qed.

(** The new level is above the open alert's: the alert is replaced. *)
Lemma upgrade_run (w : World) (l : AlertLevel) (a : Alert) :
  current_alert w = Some a ->
  String.ltb (value l) (value (alert_level a)) = true ->
  exists w',
    run (open_upgrade_or_resend l) w = inr (tt, w') /\
    current_alert w' = Some (mkAlert l (tick w 1) (tick w 2)) /\
    frame w w' [LineUpgrading (tick w 0) l; LineEmail (tick w 3) l primary_recipient] /\
    clock_reads w' = (4 + clock_reads w)%nat.
Proof.
  intros H Hlt. unfold open_upgrade_or_resend. run_phase. rewrite H. cbn.
  rewrite Hlt. cbn.
  eexists. split; [reflexivity |]. split; [reflexivity |].
  split; [close_frame | reflexivity].
Qed.

(** The new level is the open alert's and the interval has passed: the alert
    is notified again. *)
Lemma resend_run (w : World) (a : Alert) :
  current_alert w = Some a ->
  alert_level a <> NO_ALERT ->
  resend_interval (alert_level a) <= tick w 0 - last_notified a ->
  exists w',
    run (open_upgrade_or_resend (alert_level a)) w = inr (tt, w') /\
    current_alert w' = Some (mkAlert (alert_level a) (trigger_time a) (tick w 2)) /\
    frame w w' [LineResending (tick w 1) (alert_level a);
                LineEmail (tick w 3) (alert_level a) primary_recipient] /\
    clock_reads w' = (4 + clock_reads w)%nat.
Proof.
  intros H Hl Hdue. unfold open_upgrade_or_resend. run_phase. rewrite H. cbn.
  unfold tick in Hdue. cbn in Hdue.
  destruct a as [l t n]; cbn in *.
  destruct l; try congruence; cbn in *;
    (match goal with
     | |- context [?x >=? ?y] => destruct (Z.geb_spec x y) as [_ | Hlt]
     end;
     [ cbn; eexists; (split; [reflexivity |]); (split; [reflexivity |]);
       (split; [close_frame | reflexivity])
     | exfalso; unfold resend_interval, timedelta_seconds in *; cbn in *; lia ]).
Qed.

(** The new level is the open alert's and the interval has not passed:
    nothing changes but the position of the clock. *)
Lemma no_resend_run (w : World) (a : Alert) :
  current_alert w = Some a ->
  alert_level a <> NO_ALERT ->
  tick w 0 - last_notified a < resend_interval (alert_level a) ->
  exists w',
    run (open_upgrade_or_resend (alert_level a)) w = inr (tt, w') /\
    current_alert w' = Some a /\
    frame w w' [].
Proof.
  intros H Hl Hdue. unfold open_upgrade_or_resend. run_phase. rewrite H. cbn.
  unfold tick in Hdue. cbn in Hdue.
  destruct a as [l t n]; cbn in *.
  destruct l; try congruence; cbn in *;
    (match goal with
     | |- context [?x >=? ?y] => destruct (Z.geb_spec x y) as [Hge | _]
     end;
     [ exfalso; unfold resend_interval, timedelta_seconds in *; cbn in *; lia
     | cbn; eexists; split; [reflexivity |]; split; [exact H | close_frame] ]).
Qed.

(** The new level is below the open alert's: nothing changes at all. *)
Lemma lower_run (w : World) (l : AlertLevel) (a : Alert) :
  current_alert w = Some a ->
  String.ltb (value l) (value (alert_level a)) = false ->
  AlertLevel_eqb l (alert_level a) = false ->
  run (open_upgrade_or_resend l) w = inr (tt, w).
Proof.
  intros H Hlt Heq. unfold open_upgrade_or_resend. run_phase. rewrite H. cbn.
  rewrite Hlt, Heq. reflexivity.
Qed.

(** The check for a long-standing alert: the alert stays, and the boss is
    notified when the alert is older than five intervals. *)
Lemma notify_boss_run (w : World) (a : Alert) :
  current_alert w = Some a ->
  alert_level a <> NO_ALERT ->
  exists w',
    run notify_boss w = inr (tt, w') /\
    current_alert w' = Some a /\
    frame w w'
      (if tick w 0 - trigger_time a >=? resend_interval (alert_level a) * 5
       then [LineEmail (tick w 1) (alert_level a) secondary_recipient]
       else []).
Proof.
  intros H Hl. unfold notify_boss. run_phase. rewrite H. cbn.
  unfold tick. cbn.
  destruct a as [l t n]; cbn in *.
  destruct l; try congruence; cbn;
    (match goal with
     | |- context [?x >=? ?y] => destruct (x >=? y)
     end;
     cbn; eexists; (split; [reflexivity |]); (split; [exact H | close_frame])).
Qed.

(** The random merge: the alert stays and at most a "merged" line is
    printed. *)
Lemma maybe_pr_merge_run (w : World) :
  exists w' out,
    run maybe_pr_merge w = inr (tt, w') /\
    current_alert w' = current_alert w /\
    frame w w' out /\
    (out = [] \/ exists t h, out = [LinePRMerged t h]).
Proof.
  unfold maybe_pr_merge. run_phase.
  destruct (current_alert w) as [a |] eqn:H; cbn.
  - destruct (Qltb (rng w (rng_draws w)) (1 # 10)); cbn.
    + eexists. exists [LinePRMerged (clock w (clock_reads w)) (entropy w (entropy_draws w))].
      split; [reflexivity |]. cbn. split; [first [reflexivity | exact H] |].
      split; [close_frame | right; eauto].
    + eexists. exists []. split; [reflexivity |]. cbn.
      split; [first [reflexivity | exact H] |].
      split; [close_frame | left; reflexivity].
  - eexists. exists []. split; [reflexivity |]. split; [exact H |].
    split; [apply frame_refl | left; reflexivity].
Qed.

(** ** handle_alerts as a whole *)

Lemma handle_alerts_active (latency failure_rate : Q) (w : World) :
  classify latency failure_rate <> NO_ALERT ->
  run (handle_alerts latency failure_rate) w =
  run (open_upgrade_or_resend (classify latency failure_rate) ;;
       notify_boss ;; maybe_pr_merge) w.
Proof.
  intros Hl. unfold handle_alerts.
  rewrite run_bind, classify_alert_run.
  destruct (classify latency failure_rate); try congruence; reflexivity.
Qed.

(** After the first phase has left the alert [a'] open, the call ends with
    that alert still open; on top of the lines of the first phase it sends
    the e-mail to the boss when that is due at the time [clock w i] of a
    later read. *)
Lemma active_run (latency failure_rate : Q) (w w1 : World) (o1 : list Line)
    (a' : Alert) :
  classify latency failure_rate <> NO_ALERT ->
  run (open_upgrade_or_resend (classify latency failure_rate)) w = inr (tt, w1) ->
  frame w w1 o1 ->
  current_alert w1 = Some a' ->
  alert_level a' <> NO_ALERT ->
  exists w' out i,
    returns (handle_alerts latency failure_rate) w w' out /\
    frame w w' out /\
    (clock_reads w <= i)%nat /\
    (clock_reads w1 <= clock_reads w')%nat /\
    current_alert w' = Some a' /\
    emails out = emails o1 ++ boss_due (clock w i - trigger_time a') (alert_level a') /\
    created out = created o1 /\
    logged out = logged o1.
Proof.
  intros Hl Hrun Hf1 Hcur Hok.
  destruct (notify_boss_run w1 a' Hcur Hok) as (w2 & Hrun2 & Hcur2 & Hf2).
  destruct (maybe_pr_merge_run w2) as (w3 & o3 & Hrun3 & Hcur3 & Hf3 & Ho3).
  pose proof (frame_trans _ _ _ _ _ Hf2 Hf3) as Hf23.
  pose proof (frame_trans _ _ _ _ _ Hf1 Hf23) as Hf.
  exists w3. eexists. exists (clock_reads w1).
  split.
  { split; [| apply Hf].
    rewrite handle_alerts_active by exact Hl.
    rewrite (run_seq _ _ _ _ Hrun), (run_seq _ _ _ _ Hrun2). exact Hrun3. }
  split; [exact Hf |].
  split; [apply Hf1 |].
  split; [apply Hf23 |].
  split; [congruence |].
  rewrite !emails_app, !created_app, !logged_app.
  assert (Hclk : tick w1 0 = clock w (clock_reads w1)).
  { unfold tick. destruct Hf1 as (_ & -> & _). reflexivity. }
  rewrite <- Hclk. unfold boss_due.
  destruct (tick w1 0 - trigger_time a' >=? resend_interval (alert_level a') * 5);
    destruct Ho3 as [-> | (t & h & ->)]; cbn; rewrite ?app_nil_r; auto.
Qed.

(** A sample without alert closes the open alert; no e-mail is sent. *)
Lemma resolve_run (latency failure_rate : Q) (w : World) (a : Alert) :
  classify latency failure_rate = NO_ALERT ->
  current_alert w = Some a ->
  exists w',
    run (handle_alerts latency failure_rate) w = inr (tt, w') /\
    current_alert w' = None /\
    frame w w' [LineResolved (tick w 0) (alert_level a)].
Proof.
  intros Hl H. unfold handle_alerts.
  rewrite run_bind, classify_alert_run, Hl. cbn [AlertLevel_eqb].
  unfold resolve_alert. run_phase. repeat (rewrite H; cbn).
  eexists. split; [reflexivity |]. split; [reflexivity | close_frame].
Qed.

(** A sample without alert while no alert is open changes nothing. *)
Lemma idle_run (latency failure_rate : Q) (w : World) :
  classify latency failure_rate = NO_ALERT ->
  current_alert w = None ->
  run (handle_alerts latency failure_rate) w = inr (tt, w).
Proof.
  intros Hl H. unfold handle_alerts.
  rewrite run_bind, classify_alert_run, Hl. cbn [AlertLevel_eqb].
  run_phase. rewrite H. reflexivity.
Qed.

Lemma stamped_keep (w w' : World) (out : list Line) (a : Alert) :
  frame w w' out -> stamped w ->
  current_alert w = Some a -> current_alert w' = Some a -> stamped w'.
Proof.
  intros (_ & Hc & Hr & _) Hs Hw Hw' b Hb.
  rewrite Hw' in Hb. injection Hb as <-.
  destruct (Hs a Hw) as (i & k & Hik & Ht & Hn).
  exists i, k. rewrite Hc. repeat split; auto; lia.
Qed.

(** [handle_alerts] always ends normally from a world whose open alert has a
    level of the table, and keeps what the later calls rely on. *)
Lemma handle_alerts_preserves (latency failure_rate : Q) (w : World) :
  alert_ok w ->
  exists w' out,
    returns (handle_alerts latency failure_rate) w w' out /\
    frame w w' out /\
    logged out = [] /\
    alert_ok w' /\
    (stamped w -> stamped w').
Proof.
  intros Hok.
  destruct (AlertLevel_eqb (classify latency failure_rate) NO_ALERT) eqn:Hl.
  - apply AlertLevel_eqb_eq in Hl.
    destruct (current_alert w) as [a |] eqn:Hw.
    + destruct (resolve_run _ _ _ _ Hl Hw) as (w' & Hrun & Hcur & Hf).
      exists w'. eexists. split; [split; [exact Hrun | apply Hf] |].
      split; [exact Hf |]. split; [reflexivity |].
      split; intros ? b Hb; congruence.
    + exists w, []. split; [split; [apply idle_run; auto | apply frame_refl] |].
      split; [apply frame_refl | auto].
  - assert (Hl' : classify latency failure_rate <> NO_ALERT).
    { intros E. rewrite E in Hl. discriminate. }
    assert (Hfresh : forall w1 o1 t n,
      run (open_upgrade_or_resend (classify latency failure_rate)) w = inr (tt, w1) ->
      frame w w1 o1 -> logged o1 = [] ->
      current_alert w1 = Some (mkAlert (classify latency failure_rate) t n) ->
      (stamped w ->
       exists i k : nat, (i <= k < clock_reads w1)%nat /\ t = clock w i /\ n = clock w k) ->
      exists w' out,
        returns (handle_alerts latency failure_rate) w w' out /\
        frame w w' out /\ logged out = [] /\ alert_ok w' /\
        (stamped w -> stamped w')).
    { intros w1 o1 t n Hrun Hf1 Hlog Hcur Hst.
      destruct (active_run _ _ _ _ _ _ Hl' Hrun Hf1 Hcur Hl')
        as (w' & out & i & Hret & Hf & _ & Hr & Hcur' & _ & _ & Hlog').
      exists w', out. split; [exact Hret |]. split; [exact Hf |].
      split; [congruence |]. split.
      - intros b Hb. rewrite Hcur' in Hb. injection Hb as <-. exact Hl'.
      - intros Hs b Hb. rewrite Hcur' in Hb. injection Hb as <-.
        destruct (Hst Hs) as (j & k & Hjk & Ht & Hn).
        exists j, k. destruct Hf as (_ & -> & _). cbn. repeat split; auto; lia. }
    destruct (current_alert w) as [a |] eqn:Hw.
    + pose proof (Hok a Hw) as Ha.
      destruct (String.ltb (value (classify latency failure_rate)) (value (alert_level a)))
        eqn:Hlt.
      * destruct (upgrade_run w _ a Hw Hlt) as (w1 & Hrun & Hcur & Hf1 & Hr).
        apply (Hfresh w1 _ _ _ Hrun Hf1 eq_refl Hcur).
        intros _. exists (1 + clock_reads w)%nat, (2 + clock_reads w)%nat.
        unfold tick. repeat split; lia.
      * destruct (AlertLevel_eqb (classify latency failure_rate) (alert_level a)) eqn:Heq.
        -- apply AlertLevel_eqb_eq in Heq.
           destruct (Z_le_gt_dec (resend_interval (alert_level a))
                       (tick w 0 - last_notified a)) as [Hdue | Hnot].
           ++ destruct (resend_run w a Hw Ha Hdue) as (w1 & Hrun & Hcur & Hf1 & Hr).
              rewrite <- Heq in Hrun, Hcur.
              apply (Hfresh w1 _ _ _ Hrun Hf1 eq_refl Hcur).
              intros Hs. destruct (Hs a Hw) as (i & k & Hik & Ht & _).
              exists i, (2 + clock_reads w)%nat.
              unfold tick. repeat split; auto; lia.
           ++ destruct (no_resend_run w a Hw Ha) as (w1 & Hrun & Hcur & Hf1); [lia |].
              rewrite <- Heq in Hrun.
              destruct a as [l t n]; cbn in Heq; subst l.
              apply (Hfresh w1 _ _ _ Hrun Hf1 eq_refl Hcur).
              intros Hs. destruct (Hs _ Hw) as (i & k & Hik & Ht & Hn).
              exists i, k. cbn in *. destruct Hf1 as (_ & _ & Hr & _).
              repeat split; auto; lia.
        -- pose proof (lower_run w _ a Hw Hlt Heq) as Hrun.
           destruct (active_run _ _ _ _ [] _ Hl' Hrun (frame_refl w) Hw Ha)
             as (w' & out & i & Hret & Hf & _ & Hr & Hcur' & _ & _ & Hlog').
           exists w', out. split; [exact Hret |]. split; [exact Hf |].
           split; [exact Hlog' |]. split.
           ++ intros b Hb. rewrite Hcur' in Hb. injection Hb as <-. exact Ha.
           ++ intros Hs. exact (stamped_keep _ _ _ _ Hf Hs Hw Hcur').
    + destruct (open_run w (classify latency failure_rate) Hw)
        as (w1 & Hrun & Hcur & Hf1 & Hr).
      apply (Hfresh w1 _ _ _ Hrun Hf1 eq_refl Hcur).
      intros _. exists (1 + clock_reads w)%nat, (2 + clock_reads w)%nat.
      unfold tick. repeat split; lia.
Qed.

Lemma severity_rank_inj (a b : AlertLevel) :
  severity_rank a = severity_rank b -> a = b.
Proof. destruct a, b; cbn; intros; congruence || lia. Qed.

Lemma boss_due_fresh (l : AlertLevel) : l <> NO_ALERT -> boss_due 0 l = [].
Proof. destruct l; intros; try congruence; reflexivity. Qed.

(** A sample with an alert level while no alert is open. *)
Lemma open_case (latency failure_rate : Q) (w : World) :
  current_alert w = None ->
  classify latency failure_rate <> NO_ALERT ->
  exists w' out i,
    returns (handle_alerts latency failure_rate) w w' out /\
    frame w w' out /\
    (clock_reads w <= i)%nat /\
    let l := classify latency failure_rate in
    current_alert w' = Some (mkAlert l (tick w 1) (tick w 2)) /\
    emails out = (l, primary_recipient) :: boss_due (clock w i - tick w 1) l /\
    created out = [l].
Proof.
  intros Hw Hl.
  destruct (open_run w (classify latency failure_rate) Hw) as (w1 & Hrun & Hcur & Hf1 & _).
  destruct (active_run _ _ _ _ _ _ Hl Hrun Hf1 Hcur Hl)
    as (w' & out & i & Hret & Hf & Hi & _ & Hcur' & Hem & Hcr & _).
  exists w', out, i. cbn in *. auto 10.
Qed.

(** A sample with an alert level while the alert [a] is open: the four
    ways the call can go. *)
Lemma open_alert_cases (latency failure_rate : Q) (w : World) (a : Alert) :
  current_alert w = Some a ->
  alert_level a <> NO_ALERT ->
  classify latency failure_rate <> NO_ALERT ->
  exists w' out i,
    returns (handle_alerts latency failure_rate) w w' out /\
    frame w w' out /\
    (clock_reads w <= i)%nat /\
    let l := classify latency failure_rate in
    ( (severity_rank (alert_level a) < severity_rank l /\
       current_alert w' = Some (mkAlert l (tick w 1) (tick w 2)) /\
       emails out = (l, primary_recipient) :: boss_due (clock w i - tick w 1) l /\
       created out = [l])
   \/ (l = alert_level a /\
       resend_interval l <= tick w 0 - last_notified a /\
       current_alert w' = Some (mkAlert l (trigger_time a) (tick w 2)) /\
       emails out = (l, primary_recipient) :: boss_due (clock w i - trigger_time a) l /\
       created out = [])
   \/ (l = alert_level a /\
       tick w 0 - last_notified a < resend_interval l /\
       current_alert w' = Some a /\
       emails out = boss_due (clock w i - trigger_time a) l /\
       created out = [])
   \/ (severity_rank l < severity_rank (alert_level a) /\
       current_alert w' = Some a /\
       emails out = boss_due (clock w i - trigger_time a) (alert_level a) /\
       created out = []) ).
Proof.
  intros Hw Ha Hl. cbn zeta.
  pose proof (value_ltb_rank _ _ Hl Ha) as Hrank.
  destruct (String.ltb (value (classify latency failure_rate)) (value (alert_level a)))
    eqn:Hlt.
  - destruct (upgrade_run w _ a Hw Hlt) as (w1 & Hrun & Hcur & Hf1 & _).
    destruct (active_run _ _ _ _ _ _ Hl Hrun Hf1 Hcur Hl)
      as (w' & out & i & Hret & Hf & Hi & _ & Hcur' & Hem & Hcr & _).
    exists w', out, i. repeat (split; [assumption |]).
    left. symmetry in Hrank. apply Z.ltb_lt in Hrank. cbn in *. auto.
  - symmetry in Hrank. apply Z.ltb_ge in Hrank.
    destruct (AlertLevel_eqb (classify latency failure_rate) (alert_level a)) eqn:Heq.
    + apply AlertLevel_eqb_eq in Heq.
      destruct (Z_le_gt_dec (resend_interval (alert_level a))
                  (tick w 0 - last_notified a)) as [Hdue | Hnot].
      * destruct (resend_run w a Hw Ha Hdue) as (w1 & Hrun & Hcur & Hf1 & _).
        rewrite <- Heq in Hrun, Hcur.
        destruct (active_run _ _ _ _ _ _ Hl Hrun Hf1 Hcur Hl)
          as (w' & out & i & Hret & Hf & Hi & _ & Hcur' & Hem & Hcr & _).
        exists w', out, i. repeat (split; [assumption |]).
        right; left. cbn in *. rewrite Heq in Hem, Hcur' |- *.
        repeat split; auto.
      * destruct (no_resend_run w a Hw Ha) as (w1 & Hrun & Hcur & Hf1); [lia |].
        rewrite <- Heq in Hrun.
        destruct (active_run _ _ _ _ _ _ Hl Hrun Hf1 Hcur Ha)
          as (w' & out & i & Hret & Hf & Hi & _ & Hcur' & Hem & Hcr & _).
        exists w', out, i. repeat (split; [assumption |]).
        right; right; left. cbn in *. rewrite Heq in *.
        repeat split; auto; lia.
    + pose proof (lower_run w _ a Hw Hlt Heq) as Hrun.
      destruct (active_run _ _ _ _ [] _ Hl Hrun (frame_refl w) Hw Ha)
        as (w' & out & i & Hret & Hf & Hi & _ & Hcur' & Hem & Hcr & _).
      exists w', out, i. repeat (split; [assumption |]).
      right; right; right. cbn in *. repeat split; auto.
      assert (severity_rank (classify latency failure_rate)
              <> severity_rank (alert_level a)).
      { intros E. apply severity_rank_inj in E. rewrite E in Heq.
        destruct (alert_level a); discriminate. }
      lia.
Qed.

(** ** log_status and the loop *)

Lemma skipn_succ_tl {A : Type} (n : nat) (l : list A) :
  skipn (S n) l = tl (skipn n l).
Proof.
  revert l. induction n as [| n IH]; intros [| x l]; cbn; auto.
  rewrite <- IH. destruct l; reflexivity.
Qed.

(** Appending to a list that holds the last [c] elements and dropping the
    head when it grows beyond [c] gives the last [c] elements again. *)
Lemma push_evict_tail {A : Type} (c : nat) (L : list A) (m : A) :
  (0 < c)%nat ->
  let h := skipn (List.length L - c) L in
  (if Z.of_nat (List.length (h ++ [m])) >? Z.of_nat c then tl (h ++ [m]) else h ++ [m])
  = skipn (List.length (L ++ [m]) - c) (L ++ [m]).
Proof.
  intros Hc h. subst h.
  rewrite !length_app, length_skipn. cbn [List.length].
  destruct (Z.gtb_spec (Z.of_nat (List.length L - (List.length L - c) + 1)) (Z.of_nat c))
    as [Hgt | Hle].
  - assert (Hlen : (c <= List.length L)%nat) by lia.
    replace (List.length L + 1 - c)%nat with (S (List.length L - c)) by lia.
    rewrite skipn_succ_tl, skipn_app.
    replace (List.length L - c - List.length L)%nat with 0%nat by lia.
    reflexivity.
  - replace (List.length L - c)%nat with 0%nat by lia.
    replace (List.length L + 1 - c)%nat with 0%nat by lia.
    reflexivity.
Qed.

Lemma LOG_CAPACITY_pos : (0 < Z.to_nat LOG_CAPACITY)%nat.
Proof. unfold LOG_CAPACITY. lia. Qed.

(** [log_status] never raises: it prints the message, appends it to the log
    and drops the oldest message when the log has grown beyond its bound. *)
Lemma log_status_run (latency failure_rate : Q) (level : AlertLevel) (w : World) :
  let m := mkLogMessage (tick w 0) latency failure_rate level in
  let l := log_history w ++ [m] in
  exists w',
    run (log_status latency failure_rate level) w = inr (tt, w') /\
    current_alert w' = current_alert w /\
    clock w' = clock w /\
    clock_reads w' = S (clock_reads w) /\
    stdout w' = stdout w ++ [LineLog m] /\
    log_history w' = if Z.of_nat (List.length l) >? LOG_CAPACITY then tl l else l.
Proof.
  intros m l. subst l m. unfold log_status, run, tick.
  cbn -[Z.of_nat Z.gtb LOG_CAPACITY List.app List.length].
  match goal with
  | |- context [?x >? ?y] => destruct (x >? y)
  end; cbn -[Z.of_nat Z.gtb LOG_CAPACITY List.app List.length].
  - destruct (log_history w) as [| x h]; cbn;
      eexists; (split; [reflexivity |]); cbn; auto.
  - eexists. split; [reflexivity |]. cbn. auto.
Qed.

(** One turn of the loop ends normally and keeps the invariants; it prints
    one log message, of its sample. *)
Lemma monitor_tick_preserves (s : Q * Q) (w : World) :
  alert_ok w ->
  exists w',
    run (monitor_tick s) w = inr (tt, w') /\
    alert_ok w' /\
    (stamped w -> stamped w') /\
    (log_is_tail w -> log_is_tail w') /\
    clock w' = clock w /\
    exists m, sample_of m = s /\ logged (stdout w') = logged (stdout w) ++ [m].
Proof.
  intros Hok. destruct s as [latency failure_rate]. unfold monitor_tick.
  rewrite run_bind, classify_alert_run.
  destruct (log_status_run latency failure_rate (classify latency failure_rate) w)
    as (w1 & Hrun1 & Hcur1 & Hclk1 & Hr1 & Hout1 & Hlog1).
  rewrite (run_seq _ _ _ _ Hrun1).
  assert (Hok1 : alert_ok w1).
  { intros a Ha. apply Hok. congruence. }
  destruct (handle_alerts_preserves latency failure_rate w1 Hok1)
    as (w' & out & [Hrun Hout] & Hf & Hlogged & Hok' & Hst).
  exists w'. split; [exact Hrun |]. split; [exact Hok' |].
  assert (Hprinted : logged (stdout w') =
            logged (stdout w) ++
            [mkLogMessage (tick w 0) latency failure_rate (classify latency failure_rate)]).
  { rewrite Hout, logged_app, Hlogged, app_nil_r, Hout1, logged_app. reflexivity. }
  split; [| split; [| split]].
  - intros Hs. apply Hst. intros a Ha. rewrite Hcur1 in Ha.
    destruct (Hs a Ha) as (i & k & Hik & Ht & Hn).
    exists i, k. rewrite Hclk1, Hr1. repeat split; auto; lia.
  - unfold log_is_tail. intros Htail. rewrite Hprinted.
    destruct Hf as (_ & _ & _ & ->). rewrite Hlog1, Htail.
    rewrite <- (push_evict_tail (Z.to_nat LOG_CAPACITY) _ _ LOG_CAPACITY_pos).
    rewrite Z2Nat.id by (unfold LOG_CAPACITY; lia). reflexivity.
  - destruct Hf as (_ & -> & _). exact Hclk1.
  - eexists. split; [| exact Hprinted]. reflexivity.
Qed.

(** Any number of turns of the loop end normally and keep the invariants;
    the log messages printed are those of the samples, in order. *)
Lemma monitor_loop_preserves (samples : list (Q * Q)) (w : World) :
  alert_ok w ->
  exists w',
    run (monitor_loop samples) w = inr (tt, w') /\
    alert_ok w' /\
    (stamped w -> stamped w') /\
    (log_is_tail w -> log_is_tail w') /\
    clock w' = clock w /\
    exists ms, map sample_of ms = samples /\
               logged (stdout w') = logged (stdout w) ++ ms.
Proof.
  revert w. induction samples as [| s rest IH]; intros w Hok.
  - exists w. split; [reflexivity |]. repeat (split; [auto |]).
    exists []. rewrite app_nil_r. auto.
  - destruct (monitor_tick_preserves s w Hok)
      as (w1 & Hrun1 & Hok1 & Hst1 & Htl1 & Hclk1 & m & Hm & Hlg1).
    destruct (IH w1 Hok1) as (w' & Hrun & Hok' & Hst & Htl & Hclk & ms & Hms & Hlg).
    exists w'. split.
    { cbn [monitor_loop]. rewrite (run_seq _ _ _ _ Hrun1). exact Hrun. }
    split; [exact Hok' |]. split; [auto |]. split; [auto |].
    split; [congruence |].
    exists (m :: ms). split; [cbn; congruence |].
    rewrite Hlg, Hlg1, <- app_assoc. reflexivity.
Qed.

Lemma init_alert_ok (clk : nat -> Z) (rnd : nat -> Q) (ent : nat -> string) :
  alert_ok (CloudMonitor_init clk rnd ent).
Proof. intros a Ha. discriminate. Qed.

Lemma emails_to_of (recipient : string) (out : list Line)
    (es : list (AlertLevel * string)) :
  emails out = es ->
  emails_to recipient out =
  map fst (filter (fun e => String.eqb (snd e) recipient) es).
Proof. intros <-. reflexivity. Qed.

(** [active_run] with the read of the clock at which the age of the alert
    is taken: the first phase has made [n] reads. *)
Lemma active_run_at (latency failure_rate : Q) (w w1 : World) (o1 : list Line)
    (a' : Alert) (n : nat) :
  classify latency failure_rate <> NO_ALERT ->
  run (open_upgrade_or_resend (classify latency failure_rate)) w = inr (tt, w1) ->
  frame w w1 o1 ->
  clock_reads w1 = (n + clock_reads w)%nat ->
  current_alert w1 = Some a' ->
  alert_level a' <> NO_ALERT ->
  exists w' out,
    returns (handle_alerts latency failure_rate) w w' out /\
    current_alert w' = Some a' /\
    emails out = emails o1 ++ boss_due (tick w n - trigger_time a') (alert_level a').
Proof.
  intros Hl Hrun Hf1 Hn Hcur Hok.
  destruct (notify_boss_run w1 a' Hcur Hok) as (w2 & Hrun2 & Hcur2 & Hf2).
  destruct (maybe_pr_merge_run w2) as (w3 & o3 & Hrun3 & Hcur3 & Hf3 & Ho3).
  pose proof (frame_trans _ _ _ _ _ Hf1 (frame_trans _ _ _ _ _ Hf2 Hf3)) as Hf.
  exists w3. eexists. split.
  { split; [| apply Hf].
    rewrite handle_alerts_active by exact Hl.
    rewrite (run_seq _ _ _ _ Hrun), (run_seq _ _ _ _ Hrun2). exact Hrun3. }
  split; [congruence |].
  rewrite !emails_app.
  assert (Hclk : tick w1 0 = tick w n).
  { unfold tick. destruct Hf1 as (_ & -> & _). rewrite Hn. reflexivity. }
  rewrite <- Hclk. unfold boss_due.
  destruct (tick w1 0 - trigger_time a' >=? resend_interval (alert_level a') * 5);
    destruct Ho3 as [-> | (t & h & ->)]; cbn; rewrite ?app_nil_r; auto.
Qed.

(** The first phase when the interval has not passed makes one read of the
    clock. *)
Lemma no_resend_run_reads (w : World) (a : Alert) :
  current_alert w = Some a ->
  alert_level a <> NO_ALERT ->
  tick w 0 - last_notified a < resend_interval (alert_level a) ->
  exists w',
    run (open_upgrade_or_resend (alert_level a)) w = inr (tt, w') /\
    current_alert w' = Some a /\
    frame w w' [] /\
    clock_reads w' = (1 + clock_reads w)%nat.
Proof.
  intros H Hl Hdue. unfold open_upgrade_or_resend. run_phase. rewrite H. cbn.
  unfold tick in Hdue. cbn in Hdue.
  destruct a as [l t n]; cbn in *.
  destruct l; try congruence; cbn in *;
    (match goal with
     | |- context [?x >=? ?y] => destruct (Z.geb_spec x y) as [Hge | _]
     end;
     [ exfalso; unfold resend_interval, timedelta_seconds in *; cbn in *; lia
     | cbn; eexists; (split; [reflexivity |]); (split; [exact H |]);
       (split; [close_frame | reflexivity]) ]).
Qed.

(** A sample of the level of the open alert [a], with the reads of the
    clock that the call makes. *)
Lemma same_level_case (latency failure_rate : Q) (w : World) (a : Alert) :
  current_alert w = Some a ->
  alert_level a <> NO_ALERT ->
  classify latency failure_rate = alert_level a ->
  exists w' out,
    returns (handle_alerts latency failure_rate) w w' out /\
    if tick w 0 - last_notified a >=? resend_interval (alert_level a)
    then current_alert w' =
           Some (mkAlert (alert_level a) (trigger_time a) (tick w 2)) /\
         emails out = (alert_level a, primary_recipient)
                      :: boss_due (tick w 4 - trigger_time a) (alert_level a)
    else current_alert w' = Some a /\
         emails out = boss_due (tick w 1 - trigger_time a) (alert_level a).
Proof.
  intros Hw Ha Hsame.
  assert (Hl : classify latency failure_rate <> NO_ALERT) by congruence.
  destruct (Z.geb_spec (tick w 0 - last_notified a) (resend_interval (alert_level a)))
    as [Hdue | Hnot].
  - destruct (resend_run w a Hw Ha Hdue) as (w1 & Hrun & Hcur & Hf1 & Hr).
    rewrite <- Hsame in Hrun.
    destruct (active_run_at _ _ _ _ _ _ 4 Hl Hrun Hf1 Hr Hcur Ha)
      as (w' & out & Hret & Hcur' & Hem).
    exists w', out. split; [exact Hret |]. split; [exact Hcur' | exact Hem].
  - destruct (no_resend_run_reads w a Hw Ha Hnot) as (w1 & Hrun & Hcur & Hf1 & Hr).
    rewrite <- Hsame in Hrun.
    destruct (active_run_at _ _ _ _ _ _ 1 Hl Hrun Hf1 Hr Hcur Ha)
      as (w' & out & Hret & Hcur' & Hem).
    exists w', out. split; [exact Hret |]. split; [exact Hcur' | exact Hem].
Qed.

(** A sample above the level of the open alert [a], with the reads of the
    clock that the call makes. *)
Lemma upgrade_case (latency failure_rate : Q) (w : World) (a : Alert) :
  current_alert w = Some a ->
  alert_level a <> NO_ALERT ->
  severity_rank (alert_level a) < severity_rank (classify latency failure_rate) ->
  let l := classify latency failure_rate in
  exists w' out,
    returns (handle_alerts latency failure_rate) w w' out /\
    current_alert w' = Some (mkAlert l (tick w 1) (tick w 2)) /\
    emails out = (l, primary_recipient) :: boss_due (tick w 4 - tick w 1) l.
Proof.
  intros Hw Ha Hr l. subst l.
  assert (Hl : classify latency failure_rate <> NO_ALERT).
  { intros E. rewrite E in Hr. destruct (alert_level a); cbn in Hr; lia. }
  assert (Hlt : String.ltb (value (classify latency failure_rate))
                  (value (alert_level a)) = true).
  { rewrite (value_ltb_rank _ _ Hl Ha). apply Z.ltb_lt. exact Hr. }
  destruct (upgrade_run w _ a Hw Hlt) as (w1 & Hrun & Hcur & Hf1 & Hreads).
  destruct (active_run_at _ _ _ _ _ _ 4 Hl Hrun Hf1 Hreads Hcur Hl)
    as (w' & out & Hret & Hcur' & Hem).
  exists w', out. split; [exact Hret |]. split; [exact Hcur' | exact Hem].
Qed.

(** * The properties *)

(** C2.  [classify_alert] is pure and total: on every sample it returns
    normally and leaves the world as it is.  The level returned is the
    highest one that has a threshold strictly exceeded by the latency or by
    the failure rate, and [NO_ALERT] exactly when no threshold is exceeded;
    a threshold that is only reached is not exceeded, and negative samples
    give [NO_ALERT]. *)
Theorem classify_alert_highest_exceeded (latency failure_rate : Q) (w : World) :
  exists r,
    run (classify_alert latency failure_rate) w = inr (r, w) /\
    (forall l, exceeded l latency failure_rate -> severity_rank l <= severity_rank r) /\
    (r <> NO_ALERT -> exceeded r latency failure_rate) /\
    (r = NO_ALERT <-> forall l, ~ exceeded l latency failure_rate) /\
    ((latency <= 500)%Q -> (failure_rate <= 2)%Q -> r = NO_ALERT) /\
    ((latency < 0)%Q -> (failure_rate < 0)%Q -> r = NO_ALERT).
Proof.
  exists (classify latency failure_rate).
  split; [apply classify_alert_run |].
  unfold classify.
  destruct (Qgtb latency 2000) eqn:L0; destruct (Qgtb failure_rate 10) eqn:F0;
  destruct (Qgtb latency 1000) eqn:L1; destruct (Qgtb failure_rate 5) eqn:F1;
  destruct (Qgtb latency 500) eqn:L2; destruct (Qgtb failure_rate 2) eqn:F2;
  cbn [orb];
  repeat match goal with
  | H : Qgtb _ _ = true |- _ => apply Qgtb_spec in H
  | H : Qgtb _ _ = false |- _ =>
      apply not_true_iff_false in H; rewrite Qgtb_spec in H
  end;
  unfold inject_Z in *;
  (split; [intros [| | |] He; cbn in He; cbn; try lia; tauto |]);
  (split; [intros Hr; cbn; try congruence; tauto |]);
  (split; [split;
           [ intros Hr; try discriminate Hr; intros [| | |] He; cbn in He; tauto
           | intros Hn; try reflexivity; exfalso;
             first [ apply (Hn P0); cbn; tauto
                   | apply (Hn P1); cbn; tauto
                   | apply (Hn P2); cbn; tauto ] ] |]);
  (split; intros Hlat Hfr; try reflexivity; exfalso; lra).
Qed.

(** C6.  A sample that classifies as [NO_ALERT]: [handle_alerts] ends with
    no alert open and sends no e-mail to anyone; when no alert was open the
    call changes nothing and prints nothing. *)
Theorem none_sample_resolves (latency failure_rate : Q) (w : World) :
  classify latency failure_rate = NO_ALERT ->
  exists w' out,
    returns (handle_alerts latency failure_rate) w w' out /\
    current_alert w' = None /\
    emails out = [] /\
    (current_alert w = None -> w' = w /\ out = []).
Proof.
  intros Hl. destruct (current_alert w) as [a |] eqn:Hw.
  - destruct (resolve_run _ _ _ _ Hl Hw) as (w' & Hrun & Hcur & Hf).
    exists w'. eexists. split; [split; [exact Hrun | apply Hf] |].
    split; [exact Hcur |]. split; [reflexivity | discriminate].
  - exists w, []. split; [split; [apply idle_run; auto | apply frame_refl] |].
    auto.
Qed.

Lemma none_sample_resolves_witness :
  classify (100 # 1) (1 # 100) = NO_ALERT /\
  exists w' out,
    returns (handle_alerts (100 # 1) (1 # 100))
      (world_at 7000000 (Some (mkAlert P1 1000000 1000000))) w' out /\
    current_alert w' = None /\
    emails out = [] /\
    (current_alert (world_at 7000000 (Some (mkAlert P1 1000000 1000000))) = None ->
     w' = world_at 7000000 (Some (mkAlert P1 1000000 1000000)) /\ out = []).
Proof.
  split; [reflexivity |].
  apply (none_sample_resolves (100 # 1) (1 # 100)). reflexivity.
Defined.

(** C10.  With no alert open, a sample that classifies as [NO_ALERT] leaves
    the world as it is and prints nothing, on the first call and on a second
    call with the same sample. *)
Theorem idle_sample_twice (latency failure_rate : Q) (w : World) :
  classify latency failure_rate = NO_ALERT ->
  current_alert w = None ->
  run (handle_alerts latency failure_rate) w = inr (tt, w) /\
  run (handle_alerts latency failure_rate ;; handle_alerts latency failure_rate) w
  = inr (tt, w).
Proof.
  intros Hl Hw. pose proof (idle_run _ _ _ Hl Hw) as Hrun.
  split; [exact Hrun |]. rewrite (run_seq _ _ _ _ Hrun). exact Hrun.
Qed.

Lemma idle_sample_twice_witness :
  run (handle_alerts (300 # 1) (1 # 100)) (world_at 5 None)
  = inr (tt, world_at 5 None) /\
  run (handle_alerts (300 # 1) (1 # 100) ;; handle_alerts (300 # 1) (1 # 100))
    (world_at 5 None)
  = inr (tt, world_at 5 None).
Proof.
  apply (idle_sample_twice (300 # 1) (1 # 100) (world_at 5 None)); reflexivity.
Defined.

(** C5.  While an alert is open, a sample that classifies below the alert's
    level but above [NO_ALERT] leaves the alert as it is (level, trigger time
    and time of last notification) and sends no e-mail to the team.  After
    any call the level of the open alert is not lower than before; the alert
    goes away only on a sample that classifies as [NO_ALERT]. *)
Theorem lower_sample_keeps_alert (latency failure_rate : Q) (w : World) (a : Alert) :
  current_alert w = Some a ->
  alert_level a <> NO_ALERT ->
  exists w' out,
    returns (handle_alerts latency failure_rate) w w' out /\
    (0 < severity_rank (classify latency failure_rate) < severity_rank (alert_level a) ->
     current_alert w' = Some a /\
     emails_to primary_recipient out = [] /\
     created out = []) /\
    match current_alert w' with
    | Some a' => severity_rank (alert_level a) <= severity_rank (alert_level a')
    | None => classify latency failure_rate = NO_ALERT
    end.
Proof.
  intros Hw Ha.
  destruct (AlertLevel_eqb (classify latency failure_rate) NO_ALERT) eqn:Hl.
  - apply AlertLevel_eqb_eq in Hl.
    destruct (resolve_run _ _ _ _ Hl Hw) as (w' & Hrun & Hcur & Hf).
    exists w'. eexists. split; [split; [exact Hrun | apply Hf] |].
    rewrite Hcur, Hl. cbn. split; [lia | reflexivity].
  - assert (Hl' : classify latency failure_rate <> NO_ALERT).
    { intros E. rewrite E in Hl. discriminate. }
    destruct (open_alert_cases _ _ _ _ Hw Ha Hl')
      as (w' & out & i & Hret & _ & _ & Hcases).
    exists w', out. split; [exact Hret |]. cbn zeta in Hcases.
    destruct Hcases as [(Hr & Hcur & Hem & Hcr) | [(He & _ & Hcur & Hem & Hcr)
                       | [(He & _ & Hcur & Hem & Hcr) | (Hr & Hcur & Hem & Hcr)]]];
      rewrite Hcur; cbn [alert_level]; rewrite ?He;
      (split; [intros Hlow; try (rewrite ?He in Hlow; lia) | lia]).
    split; [reflexivity |]. split; [| exact Hcr].
    rewrite (emails_to_of _ _ _ Hem). unfold boss_due.
    destruct (_ >=? _); reflexivity.
Qed.

Lemma lower_sample_keeps_alert_witness :
  exists w' out,
    returns (handle_alerts (600 # 1) (1 # 100))
      (world_at 7000000 (Some (mkAlert P0 1000000 5000000))) w' out /\
    (0 < severity_rank (classify (600 # 1) (1 # 100)) < severity_rank P0 ->
     current_alert w' = Some (mkAlert P0 1000000 5000000) /\
     emails_to primary_recipient out = [] /\
     created out = []) /\
    match current_alert w' with
    | Some a' => severity_rank P0 <= severity_rank (alert_level a')
    | None => classify (600 # 1) (1 # 100) = NO_ALERT
    end.
Proof.
  apply (lower_sample_keeps_alert (600 # 1) (1 # 100)
           (world_at 7000000 (Some (mkAlert P0 1000000 5000000)))
           (mkAlert P0 1000000 5000000)).
  - reflexivity.
  - discriminate.
Defined.

(** C1, as the code has it.  A sample that classifies with an alert level,
    with any clock.  When no alert is open, an alert of that level is
    created and exactly one e-mail goes to the team; when an alert is open
    and the new level is strictly above the alert's, the alert is replaced
    by a new one of the new level and exactly one e-mail goes to the team.
    The new alert takes its trigger time and its time of last notification
    from two successive reads of the clock, in this order: they are both
    [now] when the clock shows [now] throughout the call.  In every other
    comparison of the levels no alert is created: the open alert keeps its
    level and its trigger time. *)
Theorem alert_opened_or_escalated (latency failure_rate : Q) (w : World) :
  classify latency failure_rate <> NO_ALERT ->
  alert_ok w ->
  let l := classify latency failure_rate in
  exists w' out,
    returns (handle_alerts latency failure_rate) w w' out /\
    match current_alert w with
    | None =>
        current_alert w' = Some (mkAlert l (tick w 1) (tick w 2)) /\
        emails_to primary_recipient out = [l] /\
        created out = [l]
    | Some a =>
        if Z.ltb (severity_rank (alert_level a)) (severity_rank l)
        then current_alert w' = Some (mkAlert l (tick w 1) (tick w 2)) /\
             emails_to primary_recipient out = [l] /\
             created out = [l]
        else created out = [] /\
             exists a', current_alert w' = Some a' /\
                        alert_level a' = alert_level a /\
                        trigger_time a' = trigger_time a
    end /\
    (forall now, clock_at now w -> tick w 1 = now /\ tick w 2 = now).
Proof.
  intros Hl Hok l. subst l.
  assert (Hteam : forall out l d l',
            emails out = (l, primary_recipient) :: boss_due d l' ->
            emails_to primary_recipient out = [l]).
  { intros out l d l' Hem. rewrite (emails_to_of _ _ _ Hem). unfold boss_due.
    match goal with
    | |- context [if ?c then _ else _] => destruct c
    end; reflexivity. }
  assert (Hfrozen : forall now, clock_at now w -> tick w 1 = now /\ tick w 2 = now).
  { intros now Hnow. split; apply (clock_at_tick now); exact Hnow. }
  destruct (current_alert w) as [a |] eqn:Hw.
  - pose proof (Hok a Hw) as Ha.
    destruct (open_alert_cases _ _ _ _ Hw Ha Hl)
      as (w' & out & i & Hret & _ & Hi & Hcases).
    exists w', out. split; [exact Hret |]. split; [| exact Hfrozen].
    cbn zeta in Hcases.
    destruct Hcases as [(Hr & Hcur & Hem & Hcr) | [(He & _ & Hcur & Hem & Hcr)
                       | [(He & _ & Hcur & Hem & Hcr) | (Hr & Hcur & Hem & Hcr)]]].
    + apply Z.ltb_lt in Hr. rewrite Hr.
      split; [exact Hcur |]. split; [exact (Hteam _ _ _ _ Hem) | exact Hcr].
    + rewrite He, Z.ltb_irrefl. split; [exact Hcr |].
      eexists. split; [exact Hcur |]. auto.
    + rewrite He, Z.ltb_irrefl. split; [exact Hcr |].
      eexists. split; [exact Hcur |]. auto.
    + apply Z.lt_le_incl, Z.ltb_ge in Hr. rewrite Hr. split; [exact Hcr |].
      eexists. split; [exact Hcur |]. auto.
  - destruct (open_case _ _ _ Hw Hl) as (w' & out & i & Hret & _ & Hi & Hcase).
    exists w', out. split; [exact Hret |]. split; [| exact Hfrozen].
    cbn zeta in Hcase. destruct Hcase as (Hcur & Hem & Hcr).
    split; [exact Hcur |]. split; [exact (Hteam _ _ _ _ Hem) | exact Hcr].
Qed.

Lemma alert_opened_or_escalated_witness :
  exists w' out,
    returns (handle_alerts (2500 # 1) (1 # 100))
      (world_at 9000000 (Some (mkAlert P2 1000000 1000000))) w' out /\
    (current_alert w' = Some (mkAlert P0 9000000 9000000) /\
     emails_to primary_recipient out = [P0] /\
     created out = [P0]) /\
    (forall now,
       clock_at now (world_at 9000000 (Some (mkAlert P2 1000000 1000000))) ->
       9000000 = now /\ 9000000 = now).
Proof.
  apply (alert_opened_or_escalated (2500 # 1) (1 # 100)
           (world_at 9000000 (Some (mkAlert P2 1000000 1000000)))).
  - discriminate.
  - intros a Ha. injection Ha as <-. discriminate.
Defined.

(** C1, as stated, fails.  With a clock that advances by one microsecond at
    every read, a P2 sample on a new monitor opens an alert triggered at 1
    and last notified at 2: the two time stamps are not one and the same
    time of the call. *)
Lemma new_alert_stamps_differ :
  classify (600 # 1) (1 # 100) = P2 /\
  exists w' out,
    returns (handle_alerts (600 # 1) (1 # 100))
      (CloudMonitor_init (fun i => Z.of_nat i) (fun _ => 1%Q) (fun _ => "")) w' out /\
    current_alert w' = Some (mkAlert P2 1 2) /\
    forall a', current_alert w' = Some a' -> trigger_time a' <> last_notified a'.
Proof.
  split; [reflexivity |].
  exists (mkWorld (Some (mkAlert P2 1 2)) []
            [LineTriggered 0 P2; LineEmail 3 P2 primary_recipient]
            (fun i => Z.of_nat i) 5 (fun _ => 1%Q) 1 (fun _ => "") 0).
  exists [LineTriggered 0 P2; LineEmail 3 P2 primary_recipient].
  split; [split; vm_compute; reflexivity |].
  split; [reflexivity |].
  intros a' Ha. cbn in Ha. injection Ha as <-. cbn. discriminate.
Qed.

(** C3, as the code has it.  A sample that classifies at the level of the
    open alert, with any clock.  The call first reads the clock: when that
    time minus [last_notified] has reached the resend interval of the level,
    the time of last notification becomes a later read of the clock and
    exactly one e-mail goes to the team; otherwise the alert stays as it is
    and no e-mail goes to the team.  So one microsecond before the interval
    no e-mail goes to the team, and at the interval exactly one.  The e-mail
    to the boss is sent besides, whenever at its own read of the clock the
    alert is older than five intervals: the e-mails of the call are those
    two, in this order.  When the clock shows [now] throughout the call,
    every read is [now]. *)
Theorem same_level_resend (latency failure_rate : Q) (w : World) (a : Alert) :
  current_alert w = Some a ->
  alert_level a <> NO_ALERT ->
  classify latency failure_rate = alert_level a ->
  let l := alert_level a in
  let due := tick w 0 - last_notified a >=? resend_interval l in
  exists w' out,
    returns (handle_alerts latency failure_rate) w w' out /\
    current_alert w' = Some (if due then mkAlert l (trigger_time a) (tick w 2) else a) /\
    emails_to primary_recipient out = (if due then [l] else []) /\
    emails out = (if due then [(l, primary_recipient)] else [])
                 ++ boss_due ((if due then tick w 4 else tick w 1) - trigger_time a) l /\
    (tick w 0 - last_notified a = resend_interval l - 1 ->
     emails_to primary_recipient out = []) /\
    (tick w 0 - last_notified a = resend_interval l ->
     emails_to primary_recipient out = [l]) /\
    (forall now, clock_at now w -> forall i, tick w i = now).
Proof.
  intros Hw Ha Hsame l due. subst l due.
  destruct (same_level_case _ _ _ _ Hw Ha Hsame) as (w' & out & Hret & Hcase).
  exists w', out. split; [exact Hret |].
  assert (Hfrozen : forall now, clock_at now w -> forall i, tick w i = now).
  { intros now Hnow i. apply (clock_at_tick now). exact Hnow. }
  destruct (Z.geb_spec (tick w 0 - last_notified a) (resend_interval (alert_level a)))
    as [Hdue | Hnot]; destruct Hcase as (Hcur & Hem).
  - assert (Hp : emails_to primary_recipient out = [alert_level a]).
    { rewrite (emails_to_of _ _ _ Hem). unfold boss_due.
      match goal with
      | |- context [if ?c then _ else _] => destruct c
      end; reflexivity. }
    rewrite Hp. repeat split; auto. intros E. lia.
  - assert (Hp : emails_to primary_recipient out = []).
    { rewrite (emails_to_of _ _ _ Hem). unfold boss_due.
      match goal with
      | |- context [if ?c then _ else _] => destruct c
      end; reflexivity. }
    rewrite Hp. repeat split; auto. intros E. lia.
Qed.

Lemma same_level_resend_witness :
  exists w' out,
    returns (handle_alerts (1500 # 1) (1 # 100))
      (world_at 13000000 (Some (mkAlert P1 1000000 1000000)))
      w' out /\
    current_alert w' = Some (mkAlert P1 1000000 13000000) /\
    emails_to primary_recipient out = [P1] /\
    emails out = [(P1, primary_recipient)].
Proof.
  destruct (same_level_resend (1500 # 1) (1 # 100)
              (world_at 13000000 (Some (mkAlert P1 1000000 1000000)))
              (mkAlert P1 1000000 1000000))
    as (w' & out & Hret & Hcur & Hteam & Hem & _).
  - reflexivity.
  - discriminate.
  - reflexivity.
  - exists w', out. split; [exact Hret |]. split; [exact Hcur |].
    split; [exact Hteam | exact Hem].
Defined.

(** C3, as stated, fails.  An alert of level P1, triggered at 0 and last
    notified at 60 s, gets a P1 sample one microsecond before its resend
    interval of 12 s has passed: the call sends an e-mail, to the boss.  The
    same sample at exactly the interval sends two e-mails, not one. *)
Lemma same_level_early_sample_notifies_boss :
  classify (1500 # 1) (1 # 100) = P1 /\
  71999999 - 60000000 = resend_interval P1 - 1 /\
  72000000 - 60000000 = resend_interval P1 /\
  (exists w' out,
     returns (handle_alerts (1500 # 1) (1 # 100))
       (world_at 71999999 (Some (mkAlert P1 0 60000000))) w' out /\
     emails out = [(P1, secondary_recipient)]) /\
  (exists w' out,
     returns (handle_alerts (1500 # 1) (1 # 100))
       (world_at 72000000 (Some (mkAlert P1 0 60000000))) w' out /\
     emails out = [(P1, primary_recipient); (P1, secondary_recipient)]).
Proof.
  split; [reflexivity |]. split; [reflexivity |]. split; [reflexivity |].
  split.
  - exists (mkWorld (Some (mkAlert P1 0 60000000)) []
              [LineEmail 71999999 P1 secondary_recipient]
              (fun _ => 71999999) 3 (fun _ => 1%Q) 1 (fun _ => "") 0).
    exists [LineEmail 71999999 P1 secondary_recipient].
    split; [split |]; vm_compute; reflexivity.
  - exists (mkWorld (Some (mkAlert P1 0 72000000)) []
              [LineResending 72000000 P1;
               LineEmail 72000000 P1 primary_recipient;
               LineEmail 72000000 P1 secondary_recipient]
              (fun _ => 72000000) 6 (fun _ => 1%Q) 1 (fun _ => "") 0).
    exists [LineResending 72000000 P1;
            LineEmail 72000000 P1 primary_recipient;
            LineEmail 72000000 P1 secondary_recipient].
    split; [split |]; vm_compute; reflexivity.
Qed.

(** C4, as the code has it.  An alert has been open for five resend
    intervals of its level or more at every read of the clock from this call
    on, and a sample that classifies with an alert level is handled, with
    any clock.  When the level of the sample is not above the alert's,
    exactly one e-mail about the alert's level goes to the boss, whatever
    goes to the team, and the alert keeps its level and its trigger time, so
    that the same holds on every later call.  When the level of the sample
    is above the alert's, the alert is replaced by one triggered during the
    call, and the e-mail to the boss is sent only if the clock advances by
    five intervals of the new level between the creation and the check: not
    when the clock shows one time [now] throughout the call. *)
Theorem long_standing_alert_notifies_boss (latency failure_rate : Q)
    (w : World) (a : Alert) :
  current_alert w = Some a ->
  alert_level a <> NO_ALERT ->
  classify latency failure_rate <> NO_ALERT ->
  (forall i : nat, (clock_reads w <= i)%nat ->
     resend_interval (alert_level a) * 5 <= clock w i - trigger_time a) ->
  let l := classify latency failure_rate in
  exists w' out,
    returns (handle_alerts latency failure_rate) w w' out /\
    if Z.ltb (severity_rank (alert_level a)) (severity_rank l)
    then current_alert w' = Some (mkAlert l (tick w 1) (tick w 2)) /\
         emails_to secondary_recipient out =
         (if tick w 4 - tick w 1 >=? resend_interval l * 5 then [l] else []) /\
         (forall now, clock_at now w -> emails_to secondary_recipient out = [])
    else emails_to secondary_recipient out = [alert_level a] /\
         exists a', current_alert w' = Some a' /\
                    alert_level a' = alert_level a /\
                    trigger_time a' = trigger_time a.
Proof.
  intros Hw Ha Hl Hold l. subst l.
  destruct (Z.ltb_spec (severity_rank (alert_level a))
              (severity_rank (classify latency failure_rate))) as [Hup | Hnot].
  - destruct (upgrade_case _ _ _ _ Hw Ha Hup) as (w' & out & Hret & Hcur & Hem).
    exists w', out. split; [exact Hret |]. split; [exact Hcur |].
    assert (Hsec : emails_to secondary_recipient out =
              if tick w 4 - tick w 1 >=?
                 resend_interval (classify latency failure_rate) * 5
              then [classify latency failure_rate] else []).
    { rewrite (emails_to_of _ _ _ Hem). unfold boss_due.
      match goal with
      | |- context [if ?c then _ else _] => destruct c
      end; reflexivity. }
    split; [exact Hsec |].
    intros now Hnow. rewrite Hsec, !(clock_at_tick now), Z.sub_diag by exact Hnow.
    pose proof (boss_due_fresh _ Hl) as Hfresh. unfold boss_due in Hfresh.
    destruct (0 >=? resend_interval (classify latency failure_rate) * 5);
      [discriminate Hfresh | reflexivity].
  - destruct (open_alert_cases _ _ _ _ Hw Ha Hl)
      as (w' & out & i & Hret & _ & Hi & Hcases).
    exists w', out. split; [exact Hret |]. cbn zeta in Hcases.
    assert (Hboss : boss_due (clock w i - trigger_time a) (alert_level a)
                    = [(alert_level a, secondary_recipient)]).
    { unfold boss_due. specialize (Hold i Hi).
      destruct (Z.geb_spec (clock w i - trigger_time a)
                  (resend_interval (alert_level a) * 5)); [reflexivity | lia]. }
    destruct Hcases as [(Hr & _) | [(He & _ & Hcur & Hem & _)
                       | [(He & _ & Hcur & Hem & _) | (Hr & Hcur & Hem & _)]]].
    + lia.
    + rewrite He, Hboss in Hem.
      rewrite (emails_to_of _ _ _ Hem). split; [reflexivity |].
      eexists. split; [exact Hcur |]. auto.
    + rewrite He, Hboss in Hem.
      rewrite (emails_to_of _ _ _ Hem). split; [reflexivity |].
      eexists. split; [exact Hcur |]. auto.
    + rewrite Hboss in Hem.
      rewrite (emails_to_of _ _ _ Hem). split; [reflexivity |].
      eexists. split; [exact Hcur |]. auto.
Qed.

Lemma long_standing_alert_notifies_boss_witness :
  exists w' out,
    returns (handle_alerts (600 # 1) (1 # 100))
      (world_at 11000000 (Some (mkAlert P0 1000000 10000000)))
      w' out /\
    emails_to secondary_recipient out = [P0] /\
    exists a', current_alert w' = Some a' /\
               alert_level a' = P0 /\
               trigger_time a' = 1000000.
Proof.
  apply (long_standing_alert_notifies_boss (600 # 1) (1 # 100)
           (world_at 11000000 (Some (mkAlert P0 1000000 10000000)))
           (mkAlert P0 1000000 10000000)).
  - reflexivity.
  - discriminate.
  - discriminate.
  - intros i Hi. vm_compute. discriminate.
Defined.

(** C4, as stated, fails.  An alert of level P2 has been open for 240 s,
    five times its resend interval of 48 s, and a sample arrives that
    classifies as P0: the alert is replaced, the only e-mail of the call goes
    to the team, none to the boss. *)
Lemma escalating_sample_skips_boss :
  classify (2500 # 1) (1 # 100) = P0 /\
  resend_interval P2 * 5 <= 240000000 - 0 /\
  exists w' out,
    returns (handle_alerts (2500 # 1) (1 # 100))
      (world_at 240000000 (Some (mkAlert P2 0 0))) w' out /\
    current_alert w' = Some (mkAlert P0 240000000 240000000) /\
    emails out = [(P0, primary_recipient)] /\
    emails_to secondary_recipient out = [].
Proof.
  split; [reflexivity |]. split; [vm_compute; discriminate |].
  exists (mkWorld (Some (mkAlert P0 240000000 240000000)) []
            [LineUpgrading 240000000 P0;
             LineEmail 240000000 P0 primary_recipient]
            (fun _ => 240000000) 5 (fun _ => 1%Q) 1 (fun _ => "") 0).
  exists [LineUpgrading 240000000 P0; LineEmail 240000000 P0 primary_recipient].
  split; [split |]; vm_compute; auto.
Qed.

(** C7, as the code has it.  With a clock that never runs backwards, in
    every world that the loop reaches from a new monitor the open alert was
    last notified at or after its trigger time, and so it is after any
    further call of [handle_alerts].  When that call creates an alert, the
    trigger time and the time of last notification are two successive reads
    of the clock, in this order.  When it creates none, the alert that stays
    open keeps its level and its trigger time, and its time of last
    notification either stays or moves forward to a read of the clock. *)
Theorem alert_times_ordered (clk : nat -> Z) (rnd : nat -> Q) (ent : nat -> string)
    (samples : list (Q * Q)) :
  (forall i j : nat, (i <= j)%nat -> clk i <= clk j) ->
  exists w',
    run (monitor_loop samples) (CloudMonitor_init clk rnd ent) = inr (tt, w') /\
    (forall a, current_alert w' = Some a -> trigger_time a <= last_notified a) /\
    forall latency failure_rate, exists w'' out,
      returns (handle_alerts latency failure_rate) w' w'' out /\
      forall a'', current_alert w'' = Some a'' ->
        trigger_time a'' <= last_notified a'' /\
        match created out with
        | _ :: _ =>
            trigger_time a'' = tick w' 1 /\ last_notified a'' = tick w' 2
        | [] =>
            exists a, current_alert w' = Some a /\
              alert_level a'' = alert_level a /\
              trigger_time a'' = trigger_time a /\
              (last_notified a'' = last_notified a \/
               (last_notified a'' = tick w' 2 /\ last_notified a <= tick w' 2))
        end.
Proof.
  intros Hmono.
  destruct (monitor_loop_preserves samples _ (init_alert_ok clk rnd ent))
    as (w' & Hrun & Hok & Hst & _ & Hclk & _).
  assert (Hs : stamped w').
  { apply Hst. intros a Ha. discriminate. }
  cbn in Hclk.
  assert (Hord : forall a, current_alert w' = Some a ->
            trigger_time a <= last_notified a).
  { intros a Ha. destruct (Hs a Ha) as (i & k & Hik & -> & ->).
    rewrite Hclk. apply Hmono. lia. }
  assert (Hnew : tick w' 1 <= tick w' 2).
  { unfold tick. rewrite Hclk. apply Hmono. lia. }
  exists w'. split; [exact Hrun |]. split; [exact Hord |].
  intros latency failure_rate.
  destruct (AlertLevel_eqb (classify latency failure_rate) NO_ALERT) eqn:Hl.
  - apply AlertLevel_eqb_eq in Hl.
    destruct (current_alert w') as [a |] eqn:Hw.
    + destruct (resolve_run _ _ _ _ Hl Hw) as (w'' & Hrun' & Hcur & Hf).
      exists w''. eexists. split; [split; [exact Hrun' | apply Hf] |].
      intros a'' Ha''. congruence.
    + exists w', []. split; [split; [apply idle_run; auto | apply frame_refl] |].
      intros a'' Ha''. congruence.
  - assert (Hl' : classify latency failure_rate <> NO_ALERT).
    { intros E. rewrite E in Hl. discriminate. }
    destruct (current_alert w') as [a |] eqn:Hw.
    + pose proof (Hok a Hw) as Ha.
      destruct (open_alert_cases _ _ _ _ Hw Ha Hl')
        as (w'' & out & i & Hret & _ & _ & Hcases).
      exists w'', out. split; [exact Hret |]. cbn zeta in Hcases.
      intros a'' Ha''.
      destruct (Hs a Hw) as (p & k & Hpk & Ht & Hn).
      assert (Hlast : last_notified a <= tick w' 2).
      { rewrite Hn. unfold tick. rewrite Hclk. apply Hmono. lia. }
      pose proof (Hord a eq_refl) as Hta.
      destruct Hcases as [(_ & Hcur & _ & Hcr) | [(He & _ & Hcur & _ & Hcr)
                         | [(He & _ & Hcur & _ & Hcr) | (_ & Hcur & _ & Hcr)]]];
        rewrite Hcur in Ha''; injection Ha'' as <-; rewrite Hcr; cbn.
      * auto.
      * split; [lia |]. exists a. rewrite He. auto 6.
      * split; [exact Hta |]. exists a. auto 6.
      * split; [exact Hta |]. exists a. auto 6.
    + destruct (open_case _ _ _ Hw Hl') as (w'' & out & i & Hret & _ & _ & Hcase).
      exists w'', out. split; [exact Hret |]. cbn zeta in Hcase.
      destruct Hcase as (Hcur & _ & Hcr).
      intros a'' Ha''. rewrite Hcur in Ha''. injection Ha'' as <-.
      rewrite Hcr. cbn. auto.
Qed.

Lemma alert_times_ordered_witness :
  exists w',
    run (monitor_loop [(600 # 1, 1 # 100); (600 # 1, 1 # 100)])
      (CloudMonitor_init (fun i => Z.of_nat i) (fun _ => 1%Q) (fun _ => ""))
    = inr (tt, w') /\
    (forall a, current_alert w' = Some a -> trigger_time a <= last_notified a).
Proof.
  destruct (alert_times_ordered (fun i => Z.of_nat i) (fun _ => 1%Q) (fun _ => "")
              [(600 # 1, 1 # 100); (600 # 1, 1 # 100)])
    as (w' & Hrun & Hord & _).
  - intros i j Hij. lia.
  - exists w'. split; [exact Hrun | exact Hord].
Defined.

(** C7, as stated, fails.  With a clock that steps back by one microsecond
    at every read, a P2 sample on a new monitor opens an alert triggered at
    99 and last notified at 98. *)
Lemma backward_clock_breaks_order :
  exists w' out,
    returns (handle_alerts (600 # 1) (1 # 100))
      (CloudMonitor_init (fun i => 100 - Z.of_nat i) (fun _ => 1%Q) (fun _ => ""))
      w' out /\
    current_alert w' = Some (mkAlert P2 99 98) /\
    forall a', current_alert w' = Some a' -> last_notified a' < trigger_time a'.
Proof.
  exists (mkWorld (Some (mkAlert P2 99 98)) []
            [LineTriggered 100 P2; LineEmail 97 P2 primary_recipient]
            (fun i => 100 - Z.of_nat i) 5 (fun _ => 1%Q) 1 (fun _ => "") 0).
  exists [LineTriggered 100 P2; LineEmail 97 P2 primary_recipient].
  split; [split; vm_compute; reflexivity |].
  split; [reflexivity |].
  intros a' Ha. cbn in Ha. injection Ha as <-. cbn. lia.
Qed.

(** C9.  [handle_alerts] has no failing path.  The table of repeat times
    covers every level but [NO_ALERT]; a new monitor has no alert; from a
    world whose open alert, if any, has a level other than [NO_ALERT], every
    call of [handle_alerts] ends normally, on every sample and whatever the
    clock and the random draws are, and leaves such a world again.  So every
    run of the loop from a new monitor ends normally. *)
Theorem handle_alerts_total :
  (forall l, l <> NO_ALERT ->
     exists secs, dict_get AlertLevel_eqb ALERT_REPEAT_TIMES l = Some secs) /\
  (forall clk rnd ent, alert_ok (CloudMonitor_init clk rnd ent)) /\
  (forall latency failure_rate w,
     alert_ok w ->
     exists w', run (handle_alerts latency failure_rate) w = inr (tt, w') /\
                alert_ok w') /\
  (forall clk rnd ent samples,
     exists w', run (monitor_loop samples) (CloudMonitor_init clk rnd ent) = inr (tt, w') /\
                alert_ok w').
Proof.
  split; [| split; [| split]].
  - intros l Hl. destruct l; try congruence; eexists; reflexivity.
  - exact init_alert_ok.
  - intros latency failure_rate w Hok.
    destruct (handle_alerts_preserves latency failure_rate w Hok)
      as (w' & out & [Hrun _] & _ & _ & Hok' & _).
    exists w'. auto.
  - intros clk rnd ent samples.
    destruct (monitor_loop_preserves samples _ (init_alert_ok clk rnd ent))
      as (w' & Hrun & Hok' & _).
    exists w'. auto.
Qed.

Lemma handle_alerts_total_witness :
  exists w',
    run (handle_alerts (600 # 1) (1 # 100))
      (world_at 250000000 (Some (mkAlert P2 1000000 1000000)))
    = inr (tt, w') /\
    alert_ok w'.
Proof.
  apply (proj1 (proj2 (proj2 handle_alerts_total)) (600 # 1) (1 # 100)
           (world_at 250000000 (Some (mkAlert P2 1000000 1000000)))).
  intros a Ha. injection Ha as <-. discriminate.
Defined.

(** The invariant of C9 is needed: with an alert of level [NO_ALERT] open,
    the lookup in the table of repeat times fails. *)
Example handle_alerts_key_error :
  run (handle_alerts (600 # 1) (1 # 100)) (world_at 5 (Some (mkAlert NO_ALERT 0 0)))
  = inl KeyError.
Proof. vm_compute. reflexivity. Qed.

(** C8.  The bound of the log is 25920 messages.  After any run of the loop
    from a new monitor, one message has been printed per sample, in order;
    the log holds no more messages than the bound, and it holds the last
    ones printed, the most recent last.  After one sample more than the
    bound, the log is the printed messages without the first one: it has
    exactly as many messages as the bound, and its last message is the last
    one printed.  In any world, [log_status] appends its message at the end
    and then drops at most the oldest message. *)
Theorem log_history_bounded_fifo (clk : nat -> Z) (rnd : nat -> Q)
    (ent : nat -> string) (samples : list (Q * Q)) :
  LOG_CAPACITY = 25920 /\
  (exists w',
    run (monitor_loop samples) (CloudMonitor_init clk rnd ent) = inr (tt, w') /\
    map sample_of (logged (stdout w')) = samples /\
    Z.of_nat (List.length (log_history w')) <= LOG_CAPACITY /\
    log_history w' =
    skipn (List.length samples - Z.to_nat LOG_CAPACITY) (logged (stdout w')) /\
    (Z.of_nat (List.length samples) = LOG_CAPACITY + 1 ->
     exists first kept,
       logged (stdout w') = first :: kept /\
       log_history w' = kept /\
       Z.of_nat (List.length kept) = LOG_CAPACITY /\
       forall d, List.last kept d = List.last (first :: kept) d)) /\
  (forall latency failure_rate level w,
     exists w' m,
       run (log_status latency failure_rate level) w = inr (tt, w') /\
       sample_of m = (latency, failure_rate) /\
       (log_history w' = log_history w ++ [m] \/
        log_history w' = tl (log_history w ++ [m])) /\
       (Z.of_nat (List.length (log_history w)) <= LOG_CAPACITY ->
        Z.of_nat (List.length (log_history w')) <= LOG_CAPACITY)).
Proof.
  split; [reflexivity |]. split.
  - destruct (monitor_loop_preserves samples _ (init_alert_ok clk rnd ent))
      as (w' & Hrun & _ & _ & Htl & _ & ms & Hms & Hlg).
    assert (Htail : log_is_tail w') by (apply Htl; reflexivity).
    cbn in Hlg. unfold log_is_tail in Htail. rewrite Hlg in Htail.
    assert (Hlen : List.length ms = List.length samples).
    { rewrite <- Hms. symmetry. apply length_map. }
    exists w'. split; [exact Hrun |]. rewrite Hlg.
    split; [exact Hms |]. rewrite <- Hlen.
    split; [| split; [exact Htail |]].
    + rewrite Htail, length_skipn. unfold LOG_CAPACITY. lia.
    + intros Hfull.
      replace (List.length ms - Z.to_nat LOG_CAPACITY)%nat with 1%nat in Htail
        by (unfold LOG_CAPACITY in *; lia).
      destruct ms as [| first kept].
      { cbn [List.length] in Hfull. unfold LOG_CAPACITY in Hfull. lia. }
      exists first, kept. cbn [skipn] in Htail. repeat split; auto.
      * cbn [List.length] in Hfull. unfold LOG_CAPACITY in *. lia.
      * intros d. destruct kept as [| x kept]; [| reflexivity].
        cbn [List.length] in Hfull. unfold LOG_CAPACITY in Hfull. lia.
  - intros latency failure_rate level w.
    destruct (log_status_run latency failure_rate level w)
      as (w' & Hrun & _ & _ & _ & _ & Hlog).
    exists w', (mkLogMessage (tick w 0) latency failure_rate level).
    split; [exact Hrun |]. split; [reflexivity |].
    cbn zeta in Hlog. rewrite Hlog.
    destruct (Z.gtb_spec
                (Z.of_nat (List.length (log_history w ++
                   [mkLogMessage (tick w 0) latency failure_rate level])))
                LOG_CAPACITY) as [Hgt | Hle].
    + split; [right; reflexivity |]. intros Hbound.
      rewrite length_app in Hgt. cbn in Hgt.
      destruct (log_history w) as [| x h]; cbn in *;
        [unfold LOG_CAPACITY; lia |].
      rewrite length_app. cbn. lia.
    + split; [left; reflexivity |]. intros _. exact Hle.
Qed.

Lemma log_history_bounded_fifo_witness :
  exists w',
    run (monitor_loop [(600 # 1, 1 # 100); (100 # 1, 1 # 100)])
      (CloudMonitor_init (fun i => Z.of_nat i) (fun _ => 1%Q) (fun _ => ""))
    = inr (tt, w') /\
    map sample_of (logged (stdout w')) = [(600 # 1, 1 # 100); (100 # 1, 1 # 100)] /\
    Z.of_nat (List.length (log_history w')) <= LOG_CAPACITY.
Proof.
  destruct (proj1 (proj2 (log_history_bounded_fifo
              (fun i => Z.of_nat i) (fun _ => 1%Q) (fun _ => "")
              [(600 # 1, 1 # 100); (100 # 1, 1 # 100)])))
    as (w' & Hrun & Hms & Hlen & _).
  exists w'. auto.
Defined.

Lemma classify_alert_highest_exceeded_witness :
  exists r,
    run (classify_alert (1000 # 1) (6 # 1)) (world_at 5 None) = inr (r, world_at 5 None) /\
    r = P1.
Proof.
  destruct (classify_alert_highest_exceeded (1000 # 1) (6 # 1) (world_at 5 None))
    as (r & Hrun & _).
  exists r. split; [exact Hrun |].
  vm_compute in Hrun. injection Hrun as <-. reflexivity.
Defined.

(** * Further properties of the code *)

(** ** The lines and the draws of a call *)

Lemma same_draws_trans (w w1 w2 : World) :
  same_draws w w1 -> same_draws w1 w2 -> same_draws w w2.
Proof.
  unfold same_draws. intros (H1 & H2 & H3 & H4) (K1 & K2 & K3 & K4).
  repeat split; congruence.
Qed.

(** The first phase on a sample with an alert level: it ends normally with
    an alert open, draws nothing, and prints nothing or a line about the
    alert and the e-mail to the team. *)
Lemma first_phase_shape (w : World) (l : AlertLevel) :
  alert_ok w -> l <> NO_ALERT ->
  exists w1 o1 a1,
    run (open_upgrade_or_resend l) w = inr (tt, w1) /\
    frame w w1 o1 /\
    same_draws w w1 /\
    current_alert w1 = Some a1 /\
    alert_level a1 <> NO_ALERT /\
    first_phase_lines l o1.
Proof.
  intros Hok Hl. unfold open_upgrade_or_resend. run_phase.
  destruct (current_alert w) as [a |] eqn:Hw; cbn.
  - pose proof (Hok a Hw) as Ha.
    destruct (String.ltb (value l) (value (alert_level a))); cbn.
    + eexists.
      exists [LineUpgrading (tick w 0) l; LineEmail (tick w 3) l primary_recipient].
      eexists. split; [reflexivity |]. cbn.
      split; [close_frame |]. split; [repeat split |].
      split; [reflexivity |]. split; [exact Hl |].
      right. eexists. eexists. right; left. reflexivity.
    + destruct (AlertLevel_eqb l (alert_level a)) eqn:Heq; cbn.
      * apply AlertLevel_eqb_eq in Heq. subst l.
        destruct a as [l t n]; cbn in *.
        destruct l; try congruence; cbn;
          (match goal with
           | |- context [?x >=? ?y] => destruct (x >=? y)
           end; cbn;
           [ eexists;
             match goal with
             | |- context [mkAlert ?lv _ _] =>
                 exists [LineResending (tick w 1) lv;
                         LineEmail (tick w 3) lv primary_recipient]
             end;
             eexists; (split; [reflexivity |]); cbn;
             (split; [close_frame |]); (split; [repeat split |]);
             (split; [reflexivity |]); (split; [discriminate |]);
             right; eexists; eexists; right; right; reflexivity
           | eexists; exists []; eexists; (split; [reflexivity |]); cbn;
             (split; [close_frame |]); (split; [repeat split |]);
             (split; [exact Hw |]); (split; [discriminate |]);
             left; reflexivity ]).
      * exists w, [], a. split; [reflexivity |].
        split; [apply frame_refl |]. split; [repeat split |].
        split; [exact Hw |]. split; [exact Ha |]. left. reflexivity.
  - eexists.
    exists [LineTriggered (tick w 0) l; LineEmail (tick w 3) l primary_recipient].
    eexists. split; [reflexivity |]. cbn.
    split; [close_frame |]. split; [repeat split |].
    split; [reflexivity |]. split; [exact Hl |].
    right. eexists. eexists. left. reflexivity.
Qed.

(** The check for a long-standing alert draws nothing and prints nothing or
    the e-mail to the boss. *)
Lemma notify_boss_shape (w : World) (a : Alert) :
  current_alert w = Some a ->
  alert_level a <> NO_ALERT ->
  exists w2 o2,
    run notify_boss w = inr (tt, w2) /\
    frame w w2 o2 /\
    same_draws w w2 /\
    current_alert w2 = Some a /\
    (o2 = [] \/ exists t, o2 = [LineEmail t (alert_level a) secondary_recipient]).
Proof.
  intros H Hl. unfold notify_boss. run_phase. rewrite H. cbn.
  destruct a as [l t n]; cbn in *.
  destruct l; try congruence; cbn;
    (match goal with
     | |- context [?x >=? ?y] => destruct (x >=? y)
     end; cbn;
     [ eexists;
       match goal with
       | |- context [mkAlert ?lv _ _] =>
           exists [LineEmail (tick w 1) lv secondary_recipient]
       end;
       (split; [reflexivity |]); cbn;
       (split; [close_frame |]); (split; [repeat split |]);
       (split; [exact H |]); right; eexists; reflexivity
     | eexists; exists []; (split; [reflexivity |]); cbn;
       (split; [close_frame |]); (split; [repeat split |]);
       (split; [exact H |]); left; reflexivity ]).
Qed.

(** The random merge while an alert is open: one draw of [random.random()];
    below one tenth, a commit hash is drawn and the merge is printed. *)
Lemma maybe_pr_merge_roll (w : World) (a : Alert) :
  current_alert w = Some a ->
  exists w3 o3,
    run maybe_pr_merge w = inr (tt, w3) /\
    frame w w3 o3 /\
    current_alert w3 = Some a /\
    rng w3 = rng w /\ entropy w3 = entropy w /\
    rng_draws w3 = S (rng_draws w) /\
    (if Qltb (rng w (rng_draws w)) (1 # 10)
     then o3 = [LinePRMerged (tick w 0) (entropy w (entropy_draws w))] /\
          entropy_draws w3 = S (entropy_draws w)
     else o3 = [] /\ entropy_draws w3 = entropy_draws w).
Proof.
  intros H. unfold maybe_pr_merge. run_phase. rewrite H. cbn.
  destruct (Qltb (rng w (rng_draws w)) (1 # 10)); cbn.
  - eexists. exists [LinePRMerged (tick w 0) (entropy w (entropy_draws w))].
    split; [reflexivity |]. cbn.
    split; [close_frame |]. repeat split; auto.
  - eexists. exists []. split; [reflexivity |]. cbn.
    split; [close_frame |]. repeat split; auto.
Qed.

(** A call on a sample with an alert level, phase by phase. *)
Lemma handle_alerts_phases (latency failure_rate : Q) (w : World) :
  alert_ok w ->
  classify latency failure_rate <> NO_ALERT ->
  exists w' o1 o2 o3 a',
    returns (handle_alerts latency failure_rate) w w' (o1 ++ o2 ++ o3) /\
    current_alert w' = Some a' /\
    alert_level a' <> NO_ALERT /\
    first_phase_lines (classify latency failure_rate) o1 /\
    (o2 = [] \/ exists t, o2 = [LineEmail t (alert_level a') secondary_recipient]) /\
    rng w' = rng w /\ entropy w' = entropy w /\
    rng_draws w' = S (rng_draws w) /\
    (if Qltb (rng w (rng_draws w)) (1 # 10)
     then (exists t, o3 = [LinePRMerged t (entropy w (entropy_draws w))]) /\
          entropy_draws w' = S (entropy_draws w)
     else o3 = [] /\ entropy_draws w' = entropy_draws w).
Proof.
  intros Hok Hl.
  destruct (first_phase_shape w _ Hok Hl)
    as (w1 & o1 & a1 & Hrun1 & Hf1 & Hd1 & Hcur1 & Ha1 & Hsh1).
  destruct (notify_boss_shape w1 a1 Hcur1 Ha1)
    as (w2 & o2 & Hrun2 & Hf2 & Hd2 & Hcur2 & Hsh2).
  destruct (maybe_pr_merge_roll w2 a1 Hcur2)
    as (w3 & o3 & Hrun3 & Hf3 & Hcur3 & Hr3 & He3 & Hn3 & Hroll).
  destruct (same_draws_trans _ _ _ Hd1 Hd2) as (Hr & Hn & He & Hm).
  exists w3, o1, o2, o3, a1.
  split.
  { split.
    - rewrite handle_alerts_active by exact Hl.
      rewrite (run_seq _ _ _ _ Hrun1), (run_seq _ _ _ _ Hrun2). exact Hrun3.
    - apply (frame_trans _ _ _ _ _ Hf1 (frame_trans _ _ _ _ _ Hf2 Hf3)). }
  split; [exact Hcur3 |]. split; [exact Ha1 |]. split; [exact Hsh1 |].
  split; [exact Hsh2 |].
  split; [congruence |]. split; [congruence |]. split; [congruence |].
  rewrite Hr, Hn, He, Hm in Hroll.
  destruct (Qltb (rng w (rng_draws w)) (1 # 10)).
  - destruct Hroll as [-> ->]. split; [eexists; reflexivity | reflexivity].
  - exact Hroll.
Qed.

(** ** classify_alert *)

(** X1.  [classify_alert] is monotone: a sample that is no smaller in latency
    and in failure rate never gets a level of lower rank. *)
Theorem classify_alert_monotone (latency failure_rate latency' failure_rate' : Q)
    (w w' : World) :
  (latency <= latency')%Q ->
  (failure_rate <= failure_rate')%Q ->
  exists r r',
    run (classify_alert latency failure_rate) w = inr (r, w) /\
    run (classify_alert latency' failure_rate') w' = inr (r', w') /\
    severity_rank r <= severity_rank r'.
Proof.
  intros Hlat Hfr.
  exists (classify latency failure_rate), (classify latency' failure_rate').
  split; [apply classify_alert_run |]. split; [apply classify_alert_run |].
  unfold classify.
  destruct (Qgtb latency 2000) eqn:L0; destruct (Qgtb failure_rate 10) eqn:F0;
  destruct (Qgtb latency 1000) eqn:L1; destruct (Qgtb failure_rate 5) eqn:F1;
  destruct (Qgtb latency 500) eqn:L2; destruct (Qgtb failure_rate 2) eqn:F2;
  cbn [orb];
  destruct (Qgtb latency' 2000) eqn:L0'; destruct (Qgtb failure_rate' 10) eqn:F0';
  cbn [orb severity_rank]; try lia;
  destruct (Qgtb latency' 1000) eqn:L1'; destruct (Qgtb failure_rate' 5) eqn:F1';
  cbn [orb severity_rank]; try lia;
  destruct (Qgtb latency' 500) eqn:L2'; destruct (Qgtb failure_rate' 2) eqn:F2';
  cbn [orb severity_rank]; try lia;
  exfalso;
  repeat match goal with
  | H : Qgtb _ _ = true |- _ => apply Qgtb_spec in H
  | H : Qgtb _ _ = false |- _ =>
      apply not_true_iff_false in H; rewrite Qgtb_spec in H
  end;
  unfold inject_Z in *; lra.
Qed.

Lemma classify_alert_monotone_witness :
  exists r r',
    run (classify_alert (600 # 1) (1 # 100)) (world_at 5 None)
    = inr (r, world_at 5 None) /\
    run (classify_alert (1200 # 1) (3 # 1)) (world_at 5 None)
    = inr (r', world_at 5 None) /\
    severity_rank r <= severity_rank r'.
Proof.
  apply (classify_alert_monotone (600 # 1) (1 # 100) (1200 # 1) (3 # 1));
    vm_compute; discriminate.
Defined.

(** ** handle_alerts *)

(** X2.  An alert of level [NO_ALERT] is not covered by the table of repeat
    times: with such an alert open, every sample with an alert level makes
    [handle_alerts] raise [KeyError], in the check for a long-standing
    alert. *)
Theorem handle_alerts_key_error_on_no_alert (latency failure_rate : Q) (w : World)
    (a : Alert) :
  current_alert w = Some a ->
  alert_level a = NO_ALERT ->
  classify latency failure_rate <> NO_ALERT ->
  run (handle_alerts latency failure_rate) w = inl KeyError.
Proof.
  intros Hw Ha Hl.
  rewrite handle_alerts_active by exact Hl.
  assert (Hrun : run (open_upgrade_or_resend (classify latency failure_rate)) w
                 = inr (tt, w)).
  { apply (lower_run w _ a Hw); rewrite Ha;
      destruct (classify latency failure_rate); try congruence; reflexivity. }
  rewrite (run_seq _ _ _ _ Hrun), run_bind.
  unfold notify_boss. run_phase. rewrite Hw. cbn. rewrite Ha. reflexivity.
Qed.

Lemma handle_alerts_key_error_on_no_alert_witness :
  run (handle_alerts (2500 # 1) (1 # 100)) (world_at 5 (Some (mkAlert NO_ALERT 1 2)))
  = inl KeyError.
Proof.
  apply (handle_alerts_key_error_on_no_alert (2500 # 1) (1 # 100)
           (world_at 5 (Some (mkAlert NO_ALERT 1 2))) (mkAlert NO_ALERT 1 2)).
  - reflexivity.
  - reflexivity.
  - discriminate.
Defined.

(** X3.  After a call of [handle_alerts] an alert is open exactly when the
    sample classified with an alert level, and the rank of its level is the
    higher of the sample's rank and the rank of the alert open before. *)
Theorem open_alert_after_call (latency failure_rate : Q) (w : World) :
  alert_ok w ->
  let l := classify latency failure_rate in
  let before :=
    match current_alert w with
    | Some a => severity_rank (alert_level a)
    | None => 0
    end in
  exists w' out,
    returns (handle_alerts latency failure_rate) w w' out /\
    match current_alert w' with
    | None => l = NO_ALERT
    | Some a' =>
        l <> NO_ALERT /\
        severity_rank (alert_level a') = Z.max (severity_rank l) before
    end.
Proof.
  intros Hok l before. subst l before.
  destruct (AlertLevel_eqb (classify latency failure_rate) NO_ALERT) eqn:Hl.
  - apply AlertLevel_eqb_eq in Hl.
    destruct (current_alert w) as [a |] eqn:Hw.
    + destruct (resolve_run _ _ _ _ Hl Hw) as (w' & Hrun & Hcur & Hf).
      exists w'. eexists. split; [split; [exact Hrun | apply Hf] |].
      rewrite Hcur. exact Hl.
    + exists w, []. split; [split; [apply idle_run; auto | apply frame_refl] |].
      rewrite Hw. exact Hl.
  - assert (Hl' : classify latency failure_rate <> NO_ALERT).
    { intros E. rewrite E in Hl. discriminate. }
    assert (Hpos : 0 < severity_rank (classify latency failure_rate)).
    { destruct (classify latency failure_rate); cbn; try lia; congruence. }
    destruct (current_alert w) as [a |] eqn:Hw.
    + pose proof (Hok a Hw) as Ha.
      destruct (open_alert_cases _ _ _ _ Hw Ha Hl')
        as (w' & out & i & Hret & _ & _ & Hcases).
      exists w', out. split; [exact Hret |]. cbn zeta in Hcases.
      destruct Hcases as [(Hr & Hcur & _) | [(He & _ & Hcur & _)
                         | [(He & _ & Hcur & _) | (Hr & Hcur & _)]]];
        rewrite Hcur; cbn [alert_level]; rewrite ?He;
        (split; [congruence | lia]).
    + destruct (open_case _ _ _ Hw Hl') as (w' & out & i & Hret & _ & _ & Hcase).
      exists w', out. split; [exact Hret |]. cbn zeta in Hcase.
      destruct Hcase as (Hcur & _). rewrite Hcur. cbn [alert_level].
      split; [exact Hl' | lia].
Qed.

Lemma open_alert_after_call_witness :
  exists w' out,
    returns (handle_alerts (1500 # 1) (1 # 100))
      (world_at 9000000 (Some (mkAlert P2 1000000 1000000))) w' out /\
    match current_alert w' with
    | None => classify (1500 # 1) (1 # 100) = NO_ALERT
    | Some a' =>
        classify (1500 # 1) (1 # 100) <> NO_ALERT /\
        severity_rank (alert_level a') = 2
    end.
Proof.
  apply (open_alert_after_call (1500 # 1) (1 # 100)
           (world_at 9000000 (Some (mkAlert P2 1000000 1000000)))).
  intros a Ha. injection Ha as <-. discriminate.
Defined.

(** X4.  The e-mails of one call of [handle_alerts]: at most one to the team
    and then at most one to the boss, each about the level of the alert that
    is open after the call; no e-mail when the call leaves no alert open. *)
Theorem emails_of_a_call (latency failure_rate : Q) (w : World) :
  alert_ok w ->
  exists w' out,
    returns (handle_alerts latency failure_rate) w w' out /\
    match current_alert w' with
    | None => emails out = []
    | Some a' =>
        exists team boss : bool,
          emails out =
          (if team then [(alert_level a', primary_recipient)] else []) ++
          (if boss then [(alert_level a', secondary_recipient)] else [])
    end.
Proof.
  intros Hok.
  destruct (AlertLevel_eqb (classify latency failure_rate) NO_ALERT) eqn:Hl.
  - apply AlertLevel_eqb_eq in Hl.
    destruct (current_alert w) as [a |] eqn:Hw.
    + destruct (resolve_run _ _ _ _ Hl Hw) as (w' & Hrun & Hcur & Hf).
      exists w'. eexists. split; [split; [exact Hrun | apply Hf] |].
      rewrite Hcur. reflexivity.
    + exists w, []. split; [split; [apply idle_run; auto | apply frame_refl] |].
      rewrite Hw. reflexivity.
  - assert (Hl' : classify latency failure_rate <> NO_ALERT).
    { intros E. rewrite E in Hl. discriminate. }
    assert (Hboss : forall d l, exists boss : bool,
              boss_due d l = if boss then [(l, secondary_recipient)] else []).
    { intros d l. unfold boss_due. destruct (d >=? resend_interval l * 5);
        [exists true | exists false]; reflexivity. }
    destruct (current_alert w) as [a |] eqn:Hw.
    + pose proof (Hok a Hw) as Ha.
      destruct (open_alert_cases _ _ _ _ Hw Ha Hl')
        as (w' & out & i & Hret & _ & _ & Hcases).
      exists w', out. split; [exact Hret |]. cbn zeta in Hcases.
      destruct Hcases as [(_ & Hcur & Hem & _) | [(He & _ & Hcur & Hem & _)
                         | [(He & _ & Hcur & Hem & _) | (_ & Hcur & Hem & _)]]];
        rewrite Hcur, Hem; cbn [alert_level]; rewrite <- ?He;
        match goal with
        | |- context [boss_due ?d ?l] => destruct (Hboss d l) as [boss ->]
        end.
      * exists true, boss. reflexivity.
      * exists true, boss. reflexivity.
      * exists false, boss. reflexivity.
      * exists false, boss. reflexivity.
    + destruct (open_case _ _ _ Hw Hl') as (w' & out & i & Hret & _ & _ & Hcase).
      exists w', out. split; [exact Hret |]. cbn zeta in Hcase.
      destruct Hcase as (Hcur & Hem & _). rewrite Hcur, Hem. cbn [alert_level].
      match goal with
      | |- context [boss_due ?d ?l] => destruct (Hboss d l) as [boss ->]
      end.
      exists true, boss. reflexivity.
Qed.

Lemma emails_of_a_call_witness :
  exists w' out,
    returns (handle_alerts (1500 # 1) (1 # 100))
      (world_at 90000000 (Some (mkAlert P1 1000000 1000000))) w' out /\
    match current_alert w' with
    | None => emails out = []
    | Some a' =>
        exists team boss : bool,
          emails out =
          (if team then [(alert_level a', primary_recipient)] else []) ++
          (if boss then [(alert_level a', secondary_recipient)] else [])
    end.
Proof.
  apply (emails_of_a_call (1500 # 1) (1 # 100)
           (world_at 90000000 (Some (mkAlert P1 1000000 1000000)))).
  intros a Ha. injection Ha as <-. discriminate.
Defined.

Lemma merged_app (o1 o2 : list Line) : merged (o1 ++ o2) = merged o1 ++ merged o2.
Proof.
  induction o1 as [| x o1 IH]; [reflexivity |].
  destruct x; cbn; rewrite ?IH; reflexivity.
Qed.

Lemma no_active_app (o1 o2 : list Line) :
  no_active (o1 ++ o2) = (no_active o1 + no_active o2)%nat.
Proof.
  induction o1 as [| x o1 IH]; [reflexivity |].
  destruct x; cbn; rewrite ?IH; reflexivity.
Qed.

(** X5.  The random merge of a fix.  A call of [handle_alerts] on a sample
    with an alert level draws [random.random()] exactly once; the merge is
    printed, with a freshly drawn commit hash, exactly when the draw is below
    one tenth; either way an alert is open after the call.  A call on a
    sample without alert level draws nothing and prints no merge. *)
Theorem remediation_roll (latency failure_rate : Q) (w : World) :
  alert_ok w ->
  exists w' out,
    returns (handle_alerts latency failure_rate) w w' out /\
    rng w' = rng w /\ entropy w' = entropy w /\
    if AlertLevel_eqb (classify latency failure_rate) NO_ALERT
    then rng_draws w' = rng_draws w /\
         entropy_draws w' = entropy_draws w /\
         merged out = []
    else current_alert w' <> None /\
         rng_draws w' = S (rng_draws w) /\
         if Qltb (rng w (rng_draws w)) (1 # 10)
         then merged out = [entropy w (entropy_draws w)] /\
              entropy_draws w' = S (entropy_draws w)
         else merged out = [] /\ entropy_draws w' = entropy_draws w.
Proof.
  intros Hok.
  destruct (AlertLevel_eqb (classify latency failure_rate) NO_ALERT) eqn:Hl.
  - apply AlertLevel_eqb_eq in Hl.
    destruct (current_alert w) as [a |] eqn:Hw.
    + unfold returns, handle_alerts.
      rewrite run_bind, classify_alert_run, Hl. cbn [AlertLevel_eqb].
      unfold resolve_alert. run_phase. repeat (rewrite Hw; cbn).
      eexists. exists [LineResolved (tick w 0) (alert_level a)].
      split; [split; reflexivity |]. cbn. auto 6.
    + exists w, []. split; [split; [apply idle_run; auto | apply frame_refl] |].
      auto 6.
  - assert (Hl' : classify latency failure_rate <> NO_ALERT).
    { intros E. rewrite E in Hl. discriminate. }
    destruct (handle_alerts_phases _ _ _ Hok Hl')
      as (w' & o1 & o2 & o3 & a' & Hret & Hcur & _ & Hsh1 & Hsh2
          & Hr & He & Hn & Hroll).
    exists w'. eexists. split; [exact Hret |].
    split; [exact Hr |]. split; [exact He |].
    split; [congruence |]. split; [exact Hn |].
    rewrite !merged_app.
    assert (H1 : merged o1 = []).
    { destruct Hsh1 as [-> | (t & t' & [-> | [-> | ->]])]; reflexivity. }
    assert (H2 : merged o2 = []).
    { destruct Hsh2 as [-> | (t & ->)]; reflexivity. }
    rewrite H1, H2. cbn [app].
    destruct (Qltb (rng w (rng_draws w)) (1 # 10)).
    + destruct Hroll as ((t & ->) & Hd). split; [reflexivity | exact Hd].
    + destruct Hroll as (-> & Hd). split; [reflexivity | exact Hd].
Qed.

Lemma remediation_roll_witness :
  exists w' out,
    returns (handle_alerts (2500 # 1) (1 # 100))
      (mkWorld None [] [] (fun _ => 5) 0 (fun _ => 0%Q) 0 (fun _ => "c0ffee") 0)
      w' out /\
    current_alert w' <> None /\
    rng_draws w' = 1%nat /\
    merged out = ["c0ffee"] /\
    entropy_draws w' = 1%nat.
Proof.
  destruct (remediation_roll (2500 # 1) (1 # 100)
              (mkWorld None [] [] (fun _ => 5) 0 (fun _ => 0%Q) 0 (fun _ => "c0ffee") 0))
    as (w' & out & Hret & _ & _ & Hcur & Hn & Hm & Hd).
  - intros a Ha. discriminate.
  - exists w', out. auto.
Defined.

(** X6.  What a call of [handle_alerts] never does: it prints no log message
    and never the "no active alert" line of [resolve_alert], it prints at
    most four lines, and it leaves the log and the clock as they are. *)
Theorem handle_alerts_lines (latency failure_rate : Q) (w : World) :
  alert_ok w ->
  exists w' out,
    returns (handle_alerts latency failure_rate) w w' out /\
    logged out = [] /\
    no_active out = 0%nat /\
    (List.length out <= 4)%nat /\
    log_history w' = log_history w /\
    clock w' = clock w.
Proof.
  intros Hok.
  destruct (AlertLevel_eqb (classify latency failure_rate) NO_ALERT) eqn:Hl.
  - apply AlertLevel_eqb_eq in Hl.
    destruct (current_alert w) as [a |] eqn:Hw.
    + destruct (resolve_run _ _ _ _ Hl Hw) as (w' & Hrun & Hcur & Hf).
      exists w'. eexists. split; [split; [exact Hrun | apply Hf] |].
      destruct Hf as (_ & Hc & _ & Hlog). cbn. repeat split; auto; lia.
    + exists w, []. split; [split; [apply idle_run; auto | apply frame_refl] |].
      cbn. repeat split; auto; lia.
  - assert (Hl' : classify latency failure_rate <> NO_ALERT).
    { intros E. rewrite E in Hl. discriminate. }
    destruct (handle_alerts_phases _ _ _ Hok Hl')
      as (w' & o1 & o2 & o3 & a' & Hret & _ & _ & Hsh1 & Hsh2 & _ & _ & _ & Hroll).
    destruct (handle_alerts_preserves latency failure_rate w Hok)
      as (w'' & out'' & [Hrun'' _] & (_ & Hclk & _ & Hlog) & _).
    assert (w'' = w') as ->.
    { destruct Hret as [Hrun _]. congruence. }
    exists w'. eexists. split; [exact Hret |].
    assert (Ho3 : o3 = [] \/ exists t h, o3 = [LinePRMerged t h]).
    { destruct (Qltb (rng w (rng_draws w)) (1 # 10)).
      - destruct Hroll as ((t & ->) & _). right. eauto.
      - destruct Hroll as (-> & _). left. reflexivity. }
    rewrite !logged_app, !no_active_app, !length_app.
    destruct Hsh1 as [-> | (t & t' & [-> | [-> | ->]])];
      destruct Hsh2 as [-> | (t2 & ->)];
      destruct Ho3 as [-> | (t3 & h & ->)]; cbn; repeat split; auto; lia.
Qed.

Lemma handle_alerts_lines_witness :
  exists w' out,
    returns (handle_alerts (1500 # 1) (1 # 100))
      (world_at 90000000 (Some (mkAlert P1 1000000 1000000))) w' out /\
    logged out = [] /\
    no_active out = 0%nat /\
    (List.length out <= 4)%nat /\
    log_history w' = [] /\
    clock w' = (fun _ => 90000000).
Proof.
  apply (handle_alerts_lines (1500 # 1) (1 # 100)
           (world_at 90000000 (Some (mkAlert P1 1000000 1000000)))).
  intros a Ha. injection Ha as <-. discriminate.
Defined.

(** What the first call leaves for a second call with the same sample at
    the same time: the alert is at least of the sample's level, and when it
    is of the sample's level it was notified less than an interval ago. *)
Lemma settled_after_call (latency failure_rate : Q) (now : Z) (w : World) :
  alert_ok w ->
  clock_at now w ->
  classify latency failure_rate <> NO_ALERT ->
  exists w1 o1 a1,
    returns (handle_alerts latency failure_rate) w w1 o1 /\
    frame w w1 o1 /\
    current_alert w1 = Some a1 /\
    alert_level a1 <> NO_ALERT /\
    severity_rank (classify latency failure_rate) <= severity_rank (alert_level a1) /\
    (alert_level a1 = classify latency failure_rate ->
     now - last_notified a1 < resend_interval (alert_level a1)).
Proof.
  intros Hok Hnow Hl.
  assert (Hint : 0 < resend_interval (classify latency failure_rate)).
  { destruct (classify latency failure_rate); try congruence; reflexivity. }
  destruct (current_alert w) as [a |] eqn:Hw.
  - pose proof (Hok a Hw) as Ha.
    destruct (open_alert_cases _ _ _ _ Hw Ha Hl)
      as (w1 & o1 & i & Hret & Hf & _ & Hcases).
    cbn zeta in Hcases.
    rewrite !(clock_at_tick now) in Hcases by exact Hnow.
    destruct Hcases as [(Hr & Hcur & _) | [(He & Hdue & Hcur & _)
                       | [(He & Hdue & Hcur & _) | (Hr & Hcur & _)]]].
    + eexists w1, o1, _. repeat (split; [eassumption |]). cbn. split; [lia |].
      intros _. lia.
    + eexists w1, o1, _. repeat (split; [eassumption |]). cbn. split; [lia |].
      intros _. lia.
    + exists w1, o1, a. repeat (split; [assumption |]).
      rewrite <- He. split; [lia |]. intros _. exact Hdue.
    + exists w1, o1, a. repeat (split; [assumption |]). split; [lia |].
      intros E. rewrite E in Hr. lia.
  - destruct (open_case _ _ _ Hw Hl) as (w1 & o1 & i & Hret & Hf & _ & Hcase).
    cbn zeta in Hcase.
    rewrite !(clock_at_tick now) in Hcase by exact Hnow.
    destruct Hcase as (Hcur & _).
    eexists w1, o1, _. repeat (split; [eassumption |]). cbn. split; [lia |].
    intros _. lia.
Qed.

(** X7.  A sample handled a second time at the same time [now]: the second
    call leaves the alert as the first call left it and sends no e-mail to
    the team. *)
Theorem repeated_sample_same_instant (latency failure_rate : Q) (now : Z) (w : World) :
  alert_ok w ->
  clock_at now w ->
  exists w1 o1 w2 o2,
    returns (handle_alerts latency failure_rate) w w1 o1 /\
    returns (handle_alerts latency failure_rate) w1 w2 o2 /\
    current_alert w2 = current_alert w1 /\
    emails_to primary_recipient o2 = [].
Proof.
  intros Hok Hnow.
  destruct (AlertLevel_eqb (classify latency failure_rate) NO_ALERT) eqn:Hl.
  - apply AlertLevel_eqb_eq in Hl.
    assert (Hidle : forall w1, current_alert w1 = None ->
              returns (handle_alerts latency failure_rate) w1 w1 []).
    { intros w1 H1. split; [apply idle_run; auto | apply frame_refl]. }
    destruct (current_alert w) as [a |] eqn:Hw.
    + destruct (resolve_run _ _ _ _ Hl Hw) as (w1 & Hrun & Hcur & Hf).
      exists w1. eexists. exists w1, [].
      split; [split; [exact Hrun | apply Hf] |]. auto.
    + exists w, [], w, []. auto.
  - assert (Hl' : classify latency failure_rate <> NO_ALERT).
    { intros E. rewrite E in Hl. discriminate. }
    destruct (settled_after_call _ _ _ _ Hok Hnow Hl')
      as (w1 & o1 & a1 & Hret1 & Hf1 & Hcur1 & Ha1 & Hrank & Hfresh).
    pose proof (clock_at_frame _ _ _ _ Hnow Hf1) as Hnow1.
    destruct (open_alert_cases _ _ _ _ Hcur1 Ha1 Hl')
      as (w2 & o2 & i & Hret2 & _ & _ & Hcases).
    exists w1, o1, w2, o2. split; [exact Hret1 |]. split; [exact Hret2 |].
    cbn zeta in Hcases.
    rewrite !(clock_at_tick now) in Hcases by exact Hnow1.
    destruct Hcases as [(Hr & _) | [(He & Hdue & _)
                       | [(_ & _ & Hcur & Hem & _) | (_ & Hcur & Hem & _)]]].
    + lia.
    + symmetry in He. specialize (Hfresh He). rewrite He in Hfresh. lia.
    + split; [congruence |]. rewrite (emails_to_of _ _ _ Hem). unfold boss_due.
      match goal with
      | |- context [if ?c then _ else _] => destruct c
      end; reflexivity.
    + split; [congruence |]. rewrite (emails_to_of _ _ _ Hem). unfold boss_due.
      match goal with
      | |- context [if ?c then _ else _] => destruct c
      end; reflexivity.
Qed.

Lemma repeated_sample_same_instant_witness :
  exists w1 o1 w2 o2,
    returns (handle_alerts (2500 # 1) (1 # 100))
      (world_at 90000000 (Some (mkAlert P1 1000000 1000000))) w1 o1 /\
    returns (handle_alerts (2500 # 1) (1 # 100)) w1 w2 o2 /\
    current_alert w2 = current_alert w1 /\
    emails_to primary_recipient o2 = [].
Proof.
  apply (repeated_sample_same_instant (2500 # 1) (1 # 100) 90000000
           (world_at 90000000 (Some (mkAlert P1 1000000 1000000)))).
  - intros a Ha. injection Ha as <-. discriminate.
  - intros i Hi. reflexivity.
Defined.

(** ** resolve_alert, the ages of an alert, log_status *)

(** X8.  [resolve_alert] called directly, in any world: it never raises, it
    leaves no alert open and prints exactly one line, the "no active alert"
    notice exactly when no alert was open; it sends no e-mail and keeps the
    log.  Called twice in a row, the second call prints the notice. *)
Theorem resolve_alert_any_world (w : World) :
  exists w1 w2 line,
    run resolve_alert w = inr (tt, w1) /\
    current_alert w1 = None /\
    log_history w1 = log_history w /\
    stdout w1 = stdout w ++ [line] /\
    emails [line] = [] /\
    (no_active [line] = 1%nat <-> current_alert w = None) /\
    run (resolve_alert ;; resolve_alert) w = inr (tt, w2) /\
    current_alert w2 = None /\
    stdout w2 = stdout w ++ [line; LineNoActive (tick w 1)].
Proof.
  unfold resolve_alert. run_phase. unfold tick.
  destruct (current_alert w) as [a |] eqn:Hw; cbn.
  - eexists. eexists. exists (LineResolved (clock w (clock_reads w)) (alert_level a)).
    cbn. rewrite <- app_assoc. repeat split; auto; discriminate.
  - rewrite Hw. cbn.
    eexists. eexists. exists (LineNoActive (clock w (clock_reads w))).
    cbn. rewrite <- app_assoc. repeat split; auto.
Qed.

(** X9.  In every world that the loop reaches from a new monitor, with a
    clock that never runs backwards, the ages of the open alert are not
    negative, and the time since the trigger is at least the time since the
    last notification, both taken at the same read of the clock. *)
Theorem alert_ages_nonnegative (clk : nat -> Z) (rnd : nat -> Q) (ent : nat -> string)
    (samples : list (Q * Q)) :
  (forall i j : nat, (i <= j)%nat -> clk i <= clk j) ->
  exists w',
    run (monitor_loop samples) (CloudMonitor_init clk rnd ent) = inr (tt, w') /\
    forall a, current_alert w' = Some a ->
      exists since_trigger since_notified w1 w2,
        run (time_since_trigger a) w' = inr (since_trigger, w1) /\
        run (time_since_last_notified a) w' = inr (since_notified, w2) /\
        0 <= since_notified <= since_trigger.
Proof.
  intros Hmono.
  destruct (monitor_loop_preserves samples _ (init_alert_ok clk rnd ent))
    as (w' & Hrun & _ & Hst & _ & Hclk & _).
  assert (Hs : stamped w').
  { apply Hst. intros a Ha. discriminate. }
  cbn in Hclk.
  exists w'. split; [exact Hrun |].
  intros a Ha. destruct (Hs a Ha) as (i & k & Hik & Ht & Hn).
  eexists. eexists. eexists. eexists.
  split; [reflexivity |]. split; [reflexivity |].
  rewrite Ht, Hn, Hclk.
  pose proof (Hmono i k) as H1. pose proof (Hmono k (clock_reads w')) as H2.
  lia.
Qed.

Lemma alert_ages_nonnegative_witness :
  exists w',
    run (monitor_loop [(600 # 1, 1 # 100); (600 # 1, 1 # 100)])
      (CloudMonitor_init (fun i => Z.of_nat i) (fun _ => 1%Q) (fun _ => ""))
    = inr (tt, w') /\
    forall a, current_alert w' = Some a ->
      exists since_trigger since_notified w1 w2,
        run (time_since_trigger a) w' = inr (since_trigger, w1) /\
        run (time_since_last_notified a) w' = inr (since_notified, w2) /\
        0 <= since_notified <= since_trigger.
Proof.
  apply (alert_ages_nonnegative (fun i => Z.of_nat i) (fun _ => 1%Q) (fun _ => "")
           [(600 # 1, 1 # 100); (600 # 1, 1 # 100)]).
  intros i j Hij. lia.
Defined.

(** X10.  [log_status] in any world: it never raises, reads the clock once
    for the time stamp of the message, and leaves the alert and the e-mails
    alone.  The log grows by one message while it is shorter than the bound
    and keeps its length otherwise: a log that is already longer than the
    bound is not cut back to it. *)
Theorem log_status_length (latency failure_rate : Q) (level : AlertLevel) (w : World) :
  exists w',
    run (log_status latency failure_rate level) w = inr (tt, w') /\
    current_alert w' = current_alert w /\
    clock_reads w' = S (clock_reads w) /\
    emails (stdout w') = emails (stdout w) /\
    logged (stdout w') =
    logged (stdout w) ++ [mkLogMessage (tick w 0) latency failure_rate level] /\
    Z.of_nat (List.length (log_history w')) =
    if Z.ltb (Z.of_nat (List.length (log_history w))) LOG_CAPACITY
    then Z.of_nat (List.length (log_history w)) + 1
    else Z.of_nat (List.length (log_history w)).
Proof.
  destruct (log_status_run latency failure_rate level w)
    as (w' & Hrun & Hcur & _ & Hr & Hout & Hlog).
  exists w'. split; [exact Hrun |]. split; [exact Hcur |]. split; [exact Hr |].
  rewrite Hout, emails_app, logged_app. cbn [emails logged].
  split; [apply app_nil_r |]. split; [reflexivity |].
  cbn zeta in Hlog. rewrite Hlog.
  set (m := mkLogMessage (tick w 0) latency failure_rate level).
  assert (Hlen : Z.of_nat (List.length (log_history w ++ [m]))
                 = Z.of_nat (List.length (log_history w)) + 1).
  { rewrite length_app. cbn [List.length]. lia. }
  destruct (Z.gtb_spec (Z.of_nat (List.length (log_history w ++ [m]))) LOG_CAPACITY)
    as [Hgt | Hle];
    destruct (Z.ltb_spec (Z.of_nat (List.length (log_history w))) LOG_CAPACITY)
      as [Hlt | Hge]; try lia.
  destruct (log_history w) as [| x h]; cbn [app tl List.length] in *;
    [unfold LOG_CAPACITY in *; lia |].
  rewrite length_app. cbn [List.length]. lia.
Qed.

(** ** MetricSimulator and monitor_system *)

Lemma run_system_bind {A B : Type} (m : MS A) (f : A -> MS B) (s : System) :
  run_system (bind m f) s =
  match run_system m s with
  | inl e => inl e
  | inr (a, s') => run_system (f a) s'
  end.
Proof.
  unfold run_system. cbn. destruct (runStateT m s) as [e | [a s']]; reflexivity.
Qed.

Lemma drew_random_refl (w : World) : drew_random w w.
Proof. unfold drew_random. repeat split; auto. Qed.

Ltac close_drew := unfold drew_random; cbn; repeat split; auto; lia.

(** The latency of [generate_metrics]: one Poisson draw, whose mean tells the
    branch taken, and one or two draws of [random.random()]. *)
Lemma generate_latency_run (s : System) :
  exists mean s',
    run_system generate_latency s = inr (poisson s (poisson_draws s) mean, s') /\
    poisson s' = poisson s /\
    poisson_draws s' = S (poisson_draws s) /\
    drew_random (cloud_monitor s) (cloud_monitor s') /\
    (1 + rng_draws (cloud_monitor s) <= rng_draws (cloud_monitor s')
     <= 2 + rng_draws (cloud_monitor s))%nat /\
    failure_rate_flaky (metric_simulator s') = failure_rate_flaky (metric_simulator s) /\
    (mean = 300 \/ mean = 1200 \/ mean = 2000 \/ mean = 3500) /\
    (latency_flaky (metric_simulator s) = true <-> mean = 3500) /\
    (mean = 300 \/ mean = 1200 -> latency_flaky (metric_simulator s') = false) /\
    (mean = 2000 -> latency_flaky (metric_simulator s') = true) /\
    (mean = 3500 ->
     latency_flaky (metric_simulator s') =
     negb (Qltb (rng (cloud_monitor s) (rng_draws (cloud_monitor s))) (3 # 10))).
Proof.
  unfold generate_latency, run_system. cbn.
  destruct s as [w [lf ff] poi k]. cbn.
  destruct lf; cbn.
  - exists 3500. destruct (Qltb (rng w (rng_draws w)) (3 # 10)); cbn;
      eexists; (split; [reflexivity |]); cbn;
      repeat (split; [first [reflexivity | close_drew | lia | tauto
                             | intros; discriminate | intros; lia] |]);
      first [reflexivity | intros; discriminate | intros; lia | tauto].
  - destruct (Qltb (rng w (rng_draws w)) (2 # 10)); cbn.
    + destruct (Qltb (rng w (S (rng_draws w))) (5 # 10)); cbn.
      * exists 1200. eexists. split; [reflexivity |]. cbn.
        repeat (split; [first [reflexivity | close_drew | lia | tauto
                               | intros; discriminate | intros; lia] |]).
        intros; lia.
      * exists 2000. eexists. split; [reflexivity |]. cbn.
        repeat (split; [first [reflexivity | close_drew | lia | tauto
                               | intros; discriminate | intros; lia
                               | intros [|]; lia] |]).
        intros; lia.
    + exists 300. eexists. split; [reflexivity |]. cbn.
      repeat (split; [first [reflexivity | close_drew | lia | tauto
                             | intros; discriminate | intros; lia] |]).
      intros; lia.
Qed.

(** The failure rate of [generate_metrics], in the same way. *)
Lemma generate_failure_rate_run (s : System) :
  exists mean s',
    run_system generate_failure_rate s
    = inr (percent (poisson s (poisson_draws s) mean), s') /\
    poisson s' = poisson s /\
    poisson_draws s' = S (poisson_draws s) /\
    drew_random (cloud_monitor s) (cloud_monitor s') /\
    (1 + rng_draws (cloud_monitor s) <= rng_draws (cloud_monitor s')
     <= 2 + rng_draws (cloud_monitor s))%nat /\
    latency_flaky (metric_simulator s') = latency_flaky (metric_simulator s) /\
    (mean = 1 \/ mean = 8 \/ mean = 10 \/ mean = 15) /\
    (failure_rate_flaky (metric_simulator s) = true <-> mean = 15) /\
    (mean = 1 \/ mean = 8 -> failure_rate_flaky (metric_simulator s') = false) /\
    (mean = 10 -> failure_rate_flaky (metric_simulator s') = true) /\
    (mean = 15 ->
     failure_rate_flaky (metric_simulator s') =
     negb (Qltb (rng (cloud_monitor s) (rng_draws (cloud_monitor s))) (3 # 10))).
Proof.
  unfold generate_failure_rate, run_system. cbn.
  destruct s as [w [lf ff] poi k]. cbn.
  destruct ff; cbn.
  - exists 15. destruct (Qltb (rng w (rng_draws w)) (3 # 10)); cbn;
      eexists; (split; [reflexivity |]); cbn;
      repeat (split; [first [reflexivity | close_drew | lia | tauto
                             | intros; discriminate | intros; lia] |]);
      first [reflexivity | intros; discriminate | intros; lia | tauto].
  - destruct (Qltb (rng w (rng_draws w)) (2 # 10)); cbn.
    + destruct (Qltb (rng w (S (rng_draws w))) (5 # 10)); cbn.
      * exists 8. eexists. split; [reflexivity |]. cbn.
        repeat (split; [first [reflexivity | close_drew | lia | tauto
                               | intros; discriminate | intros; lia] |]).
        intros; lia.
      * exists 10. eexists. split; [reflexivity |]. cbn.
        repeat (split; [first [reflexivity | close_drew | lia | tauto
                               | intros; discriminate | intros; lia
                               | intros [|]; lia] |]).
        intros; lia.
    + exists 1. eexists. split; [reflexivity |]. cbn.
      repeat (split; [first [reflexivity | close_drew | lia | tauto
                             | intros; discriminate | intros; lia] |]).
      intros; lia.
Qed.

(** X11.  [generate_metrics] never raises.  It draws the latency and then
    the failure rate from the Poisson oracle, one draw each, and between two
    and four numbers from [random.random()]; the monitor is left as it is.
    The mean of each draw tells the state of the issue: a persistent issue
    (flag set) draws with mean 3500 (latency) or 15 (failure rate) and stays
    unless the next random number is below 0.3; without one, the flag gets
    set exactly by the draws of mean 2000 (latency) or 10 (failure rate). *)
Theorem generate_metrics_issue_flags (s : System) :
  exists lat_mean fr_mean s',
    run_system generate_metrics s =
    inr ((inject_Z (poisson s (poisson_draws s) lat_mean),
          percent (poisson s (S (poisson_draws s)) fr_mean)), s') /\
    poisson s' = poisson s /\
    poisson_draws s' = S (S (poisson_draws s)) /\
    drew_random (cloud_monitor s) (cloud_monitor s') /\
    (2 + rng_draws (cloud_monitor s) <= rng_draws (cloud_monitor s')
     <= 4 + rng_draws (cloud_monitor s))%nat /\
    (lat_mean = 300 \/ lat_mean = 1200 \/ lat_mean = 2000 \/ lat_mean = 3500) /\
    (fr_mean = 1 \/ fr_mean = 8 \/ fr_mean = 10 \/ fr_mean = 15) /\
    (latency_flaky (metric_simulator s) = true <-> lat_mean = 3500) /\
    (failure_rate_flaky (metric_simulator s) = true <-> fr_mean = 15) /\
    (lat_mean = 300 \/ lat_mean = 1200 -> latency_flaky (metric_simulator s') = false) /\
    (lat_mean = 2000 -> latency_flaky (metric_simulator s') = true) /\
    (lat_mean = 3500 ->
     latency_flaky (metric_simulator s') =
     negb (Qltb (rng (cloud_monitor s) (rng_draws (cloud_monitor s))) (3 # 10))) /\
    (fr_mean = 1 \/ fr_mean = 8 -> failure_rate_flaky (metric_simulator s') = false) /\
    (fr_mean = 10 -> failure_rate_flaky (metric_simulator s') = true).
Proof.
  destruct (generate_latency_run s)
    as (lm & s1 & Hrun1 & Hp1 & Hd1 & Hw1 & Hn1 & Hff1 & Hm1 & Hin1 & Hlo1 & Hhi1 & Hpe1).
  destruct (generate_failure_rate_run s1)
    as (fm & s2 & Hrun2 & Hp2 & Hd2 & Hw2 & Hn2 & Hlf2 & Hm2 & Hin2 & Hlo2 & Hhi2 & _).
  exists lm, fm, s2. split.
  { unfold generate_metrics. rewrite run_system_bind, Hrun1, run_system_bind, Hrun2.
    rewrite Hp1, Hd1. reflexivity. }
  split; [congruence |]. split; [congruence |].
  split.
  { unfold drew_random in *.
    destruct Hw1 as (A1 & A2 & A3 & A4 & A5 & A6 & A7 & A8 & A9).
    destruct Hw2 as (B1 & B2 & B3 & B4 & B5 & B6 & B7 & B8 & B9).
    repeat split; try congruence. lia. }
  split; [lia |]. split; [exact Hm1 |]. split; [exact Hm2 |].
  split; [exact Hin1 |]. split; [rewrite <- Hff1; exact Hin2 |].
  rewrite Hlf2.
  split; [exact Hlo1 |]. split; [exact Hhi1 |]. split; [exact Hpe1 |].
  split; [exact Hlo2 | exact Hhi2].
Qed.

Lemma percent_scaled_below :
  forallb percent_scaled (draws_below 2001) = true.
Proof. vm_compute. reflexivity. Qed.

Lemma percent_thresholds (k : Z) :
  0 <= k <= 2000 ->
  Qgtb (percent k) 2 = Z.ltb 200 k /\
  Qgtb (percent k) 5 = Z.ltb 500 k /\
  Qgtb (percent k) 10 = Z.ltb 1000 k.
Proof.
  intros Hk.
  assert (Hin : In k (draws_below 2001)).
  { unfold draws_below. rewrite <- (Z2Nat.id k) by lia.
    apply in_map, in_seq. split; [apply Nat.le_0_l |].
    rewrite Nat.add_0_l. apply Z2Nat.inj_lt; lia. }
  pose proof (proj1 (forallb_forall _ _) percent_scaled_below k Hin) as Hc.
  unfold percent_scaled in Hc.
  apply andb_true_iff in Hc. destruct Hc as [Hc H10].
  apply andb_true_iff in Hc. destruct Hc as [H2 H5].
  apply Bool.eqb_prop in H2, H5, H10. auto.
Qed.

(** X12.  The failure rate that [generate_metrics] returns is the Poisson
    draw divided by 100 in double arithmetic, while [classify_alert]
    compares it with 2, 5 and 10.  For a draw between 0 and 2000: a draw
    of at most 200 never raises the level, which is then the level of the
    latency alone; the level P0 is reached through the failure rate only by
    a draw above 1000. *)
Theorem generated_failure_rate_scale (s : System) (w : World) :
  exists latency k s' r,
    run_system generate_metrics s = inr ((latency, percent k), s') /\
    run (classify_alert latency (percent k)) w = inr (r, w) /\
    (0 <= k <= 200 -> run (classify_alert latency 0) w = inr (r, w)) /\
    ((latency <= 2000)%Q -> 0 <= k <= 1000 -> r <> P0) /\
    (1000 < k <= 2000 -> r = P0).
Proof.
  destruct (generate_metrics_issue_flags s) as (lm & fm & s' & Hrun & _).
  eexists. eexists. exists s'. eexists.
  split; [exact Hrun |]. split; [apply classify_alert_run |].
  set (latency := inject_Z (poisson s (poisson_draws s) lm)).
  set (k := poisson s (S (poisson_draws s)) fm).
  unfold classify.
  split; [| split].
  - intros Hk. destruct (percent_thresholds k) as (H2 & H5 & H10); [lia |].
    rewrite classify_alert_run. unfold classify. rewrite H2, H5, H10.
    change (Qgtb 0 10) with false. change (Qgtb 0 5) with false.
    change (Qgtb 0 2) with false.
    destruct (Z.ltb_spec 1000 k); [lia |].
    destruct (Z.ltb_spec 500 k); [lia |].
    destruct (Z.ltb_spec 200 k); [lia |].
    reflexivity.
  - intros Hlat Hk. destruct (percent_thresholds k) as (_ & _ & H10); [lia |].
    assert (Hg : Qgtb latency 2000 = false).
    { apply not_true_iff_false. rewrite Qgtb_spec. apply Qle_not_lt. exact Hlat. }
    rewrite Hg, H10. destruct (Z.ltb_spec 1000 k); [lia |]. cbn [orb].
    destruct (_ || _); [discriminate |]. destruct (_ || _); discriminate.
  - intros Hk. destruct (percent_thresholds k) as (_ & _ & H10); [lia |].
    rewrite H10. destruct (Z.ltb_spec 1000 k); [| lia].
    rewrite orb_true_r. reflexivity.
Qed.

Lemma generated_failure_rate_scale_witness :
  exists latency k s' r,
    run_system generate_metrics
      (monitor_system_init (fun _ => 5) (fun _ => 1%Q) (fun _ => "")
         (fun _ lam => lam)) = inr ((latency, percent k), s') /\
    run (classify_alert latency (percent k)) (world_at 5 None)
    = inr (r, world_at 5 None) /\
    (0 <= k <= 200 -> run (classify_alert latency 0) (world_at 5 None)
                      = inr (r, world_at 5 None)) /\
    ((latency <= 2000)%Q -> 0 <= k <= 1000 -> r <> P0) /\
    (1000 < k <= 2000 -> r = P0).
Proof.
  apply (generated_failure_rate_scale
           (monitor_system_init (fun _ => 5) (fun _ => 1%Q) (fun _ => "")
              (fun _ lam => lam))
           (world_at 5 None)).
Defined.

Lemma run_in_world {A : Type} (m : M A) (s : System) :
  run_system (in_world m) s =
  match run m (cloud_monitor s) with
  | inl e => inl e
  | inr (a, w) =>
      inr (a, mkSystem w (metric_simulator s) (poisson s) (poisson_draws s))
  end.
Proof. reflexivity. Qed.

(** Any number of turns of [monitor_system] end normally and keep the
    invariants of the monitor; each turn makes two Poisson draws and prints
    one log message. *)
Lemma monitor_system_loop_preserves (turns : nat) (s : System) :
  alert_ok (cloud_monitor s) ->
  exists s',
    run_system (monitor_system_loop turns) s = inr (tt, s') /\
    alert_ok (cloud_monitor s') /\
    (stamped (cloud_monitor s) -> stamped (cloud_monitor s')) /\
    (log_is_tail (cloud_monitor s) -> log_is_tail (cloud_monitor s')) /\
    clock (cloud_monitor s') = clock (cloud_monitor s) /\
    poisson_draws s' = (2 * turns + poisson_draws s)%nat /\
    exists ms, List.length ms = turns /\
               logged (stdout (cloud_monitor s')) =
               logged (stdout (cloud_monitor s)) ++ ms.
Proof.
  revert s. induction turns as [| n IH]; intros s Hok.
  - exists s. split; [reflexivity |]. repeat (split; [auto |]).
    exists []. rewrite app_nil_r. auto.
  - destruct (generate_metrics_issue_flags s)
      as (lm & fm & s1 & Hrun1 & _ & Hd1 & Hw1 & _).
    destruct Hw1 as (A1 & A2 & A3 & A4 & A5 & _).
    assert (Hok1 : alert_ok (cloud_monitor s1)).
    { intros a Ha. apply Hok. congruence. }
    destruct (monitor_tick_preserves
                (inject_Z (poisson s (poisson_draws s) lm),
                 percent (poisson s (S (poisson_draws s)) fm))
                (cloud_monitor s1) Hok1)
      as (w2 & Hrun2 & Hok2 & Hst2 & Htl2 & Hclk2 & m & _ & Hlg2).
    set (s2 := mkSystem w2 (metric_simulator s1) (poisson s1) (poisson_draws s1)).
    destruct (IH s2 Hok2) as (s' & Hrun & Hok' & Hst & Htl & Hclk & Hd & ms & Hms & Hlg).
    exists s'. split.
    { cbn [monitor_system_loop].
      rewrite run_system_bind, Hrun1, run_system_bind, run_in_world, Hrun2.
      exact Hrun. }
    split; [exact Hok' |].
    split.
    { intros Hs. apply Hst, Hst2. intros a Ha. rewrite A1 in Ha.
      destruct (Hs a Ha) as (i & k & Hik & Ht & Hn).
      exists i, k. rewrite A4, A5. auto. }
    split.
    { intros Ht. apply Htl, Htl2. unfold log_is_tail in *. rewrite A2, A3. exact Ht. }
    split; [cbn in Hclk; congruence |].
    split; [cbn in Hd; lia |].
    exists (m :: ms). split; [cbn; lia |].
    rewrite Hlg. cbn [s2 cloud_monitor]. rewrite Hlg2, A3, <- app_assoc. reflexivity.
Qed.

(** X13.  [monitor_system], for any number of turns from its start and
    whatever the oracles return: no turn raises; each turn draws twice from
    the Poisson oracle and prints one log message; the alert that is open
    has a level of the table; the log holds the last messages printed, no
    more than its bound; with a clock that never runs backwards, the open
    alert was last notified at or after its trigger time. *)
Theorem monitor_system_runs (clk : nat -> Z) (rnd : nat -> Q) (ent : nat -> string)
    (poi : nat -> Z -> Z) (turns : nat) :
  exists s',
    run_system (monitor_system_loop turns) (monitor_system_init clk rnd ent poi)
    = inr (tt, s') /\
    poisson_draws s' = (2 * turns)%nat /\
    List.length (logged (stdout (cloud_monitor s'))) = turns /\
    alert_ok (cloud_monitor s') /\
    log_is_tail (cloud_monitor s') /\
    Z.of_nat (List.length (log_history (cloud_monitor s'))) <= LOG_CAPACITY /\
    ((forall i j : nat, (i <= j)%nat -> clk i <= clk j) ->
     forall a, current_alert (cloud_monitor s') = Some a ->
       trigger_time a <= last_notified a).
Proof.
  destruct (monitor_system_loop_preserves turns
              (monitor_system_init clk rnd ent poi) (init_alert_ok clk rnd ent))
    as (s' & Hrun & Hok & Hst & Htl & Hclk & Hd & ms & Hms & Hlg).
  cbn in Hclk, Hd, Hlg.
  exists s'. split; [exact Hrun |]. split; [lia |].
  split; [rewrite Hlg; exact Hms |]. split; [exact Hok |].
  assert (Htail : log_is_tail (cloud_monitor s')) by (apply Htl; reflexivity).
  split; [exact Htail |]. split.
  - rewrite Htail, length_skipn. unfold LOG_CAPACITY. lia.
  - intros Hmono a Ha.
    assert (Hs : stamped (cloud_monitor s')).
    { apply Hst. intros b Hb. discriminate. }
    destruct (Hs a Ha) as (i & k & Hik & -> & ->).
    rewrite Hclk. apply Hmono. lia.
Qed.

Lemma monitor_system_runs_witness :
  exists s',
    run_system (monitor_system_loop 3)
      (monitor_system_init (fun i => Z.of_nat i) (fun _ => 0%Q) (fun _ => "")
         (fun _ lam => lam))
    = inr (tt, s') /\
    poisson_draws s' = 6%nat /\
    List.length (logged (stdout (cloud_monitor s'))) = 3%nat /\
    alert_ok (cloud_monitor s').
Proof.
  destruct (monitor_system_runs (fun i => Z.of_nat i) (fun _ => 0%Q) (fun _ => "")
              (fun _ lam => lam) 3)
    as (s' & Hrun & Hd & Hlen & Hok & _).
  exists s'. auto.
Defined.

(** ** The time stamps of a new alert and the e-mail to the boss *)

(** X14.  A sample with an alert level while no alert is open, with any
    clock: the new alert takes its trigger time from the read of the clock
    that follows the one of the "Triggered" line, and its time of last
    notification from the read after that.  With a clock that advances at
    every read, the alert is created with a trigger time strictly before its
    time of last notification. *)
Theorem new_alert_reads_clock_twice (latency failure_rate : Q) (w : World) :
  current_alert w = None ->
  classify latency failure_rate <> NO_ALERT ->
  exists w' out a',
    returns (handle_alerts latency failure_rate) w w' out /\
    current_alert w' = Some a' /\
    alert_level a' = classify latency failure_rate /\
    trigger_time a' = tick w 1 /\
    last_notified a' = tick w 2 /\
    ((forall i j : nat, (i < j)%nat -> clock w i < clock w j) ->
     trigger_time a' < last_notified a').
Proof.
  intros Hw Hl.
  destruct (open_case _ _ _ Hw Hl) as (w' & out & i & Hret & _ & _ & Hcase).
  cbn zeta in Hcase. destruct Hcase as (Hcur & _).
  eexists w', out, _. split; [exact Hret |]. split; [exact Hcur |].
  cbn. repeat split. intros Hinc. unfold tick. apply Hinc. lia.
Qed.

Lemma new_alert_reads_clock_twice_witness :
  exists w' out a',
    returns (handle_alerts (600 # 1) (1 # 100))
      (CloudMonitor_init (fun i => Z.of_nat i) (fun _ => 1%Q) (fun _ => "")) w' out /\
    current_alert w' = Some a' /\
    alert_level a' = classify (600 # 1) (1 # 100) /\
    trigger_time a' = 1 /\
    last_notified a' = 2 /\
    ((forall i j : nat, (i < j)%nat -> Z.of_nat i < Z.of_nat j) ->
     trigger_time a' < last_notified a').
Proof.
  apply (new_alert_reads_clock_twice (600 # 1) (1 # 100)
           (CloudMonitor_init (fun i => Z.of_nat i) (fun _ => 1%Q) (fun _ => ""))).
  - reflexivity.
  - discriminate.
Defined.

(** X15.  A call of [handle_alerts] at time [now] sends the e-mail to the
    boss exactly when the alert that it leaves open was triggered five
    resend intervals of its level ago or more; so never for an alert
    created or replaced by this call, and never when it leaves no alert. *)
Theorem boss_email_iff_old (latency failure_rate : Q) (now : Z) (w : World) :
  alert_ok w ->
  clock_at now w ->
  exists w' out,
    returns (handle_alerts latency failure_rate) w w' out /\
    match current_alert w' with
    | None => emails_to secondary_recipient out = []
    | Some a' =>
        emails_to secondary_recipient out =
        (if now - trigger_time a' >=? resend_interval (alert_level a') * 5
         then [alert_level a'] else []) /\
        (created out <> [] -> emails_to secondary_recipient out = [])
    end.
Proof.
  intros Hok Hnow.
  assert (Hsec1 : forall l0 d l,
            map fst (filter (fun e : AlertLevel * string =>
                               String.eqb (snd e) secondary_recipient)
                       ((l0, primary_recipient) :: boss_due d l))
            = if d >=? resend_interval l * 5 then [l] else []).
  { intros l0 d l. unfold boss_due.
    destruct (d >=? resend_interval l * 5); reflexivity. }
  assert (Hsec0 : forall d l,
            map fst (filter (fun e : AlertLevel * string =>
                               String.eqb (snd e) secondary_recipient)
                       (boss_due d l))
            = if d >=? resend_interval l * 5 then [l] else []).
  { intros d l. unfold boss_due.
    destruct (d >=? resend_interval l * 5); reflexivity. }
  destruct (AlertLevel_eqb (classify latency failure_rate) NO_ALERT) eqn:Hl.
  - apply AlertLevel_eqb_eq in Hl.
    destruct (current_alert w) as [a |] eqn:Hw.
    + destruct (resolve_run _ _ _ _ Hl Hw) as (w' & Hrun & Hcur & Hf).
      exists w'. eexists. split; [split; [exact Hrun | apply Hf] |].
      rewrite Hcur. reflexivity.
    + exists w, []. split; [split; [apply idle_run; auto | apply frame_refl] |].
      rewrite Hw. reflexivity.
  - assert (Hl' : classify latency failure_rate <> NO_ALERT).
    { intros E. rewrite E in Hl. discriminate. }
    pose proof (boss_due_fresh _ Hl') as Hfresh.
    destruct (current_alert w) as [a |] eqn:Hw.
    + pose proof (Hok a Hw) as Ha.
      destruct (open_alert_cases _ _ _ _ Hw Ha Hl')
        as (w' & out & i & Hret & _ & Hi & Hcases).
      exists w', out. split; [exact Hret |]. cbn zeta in Hcases.
      rewrite !(clock_at_tick now) in Hcases by exact Hnow.
      rewrite (Hnow i Hi) in Hcases.
      destruct Hcases as [(_ & Hcur & Hem & Hcr) | [(He & _ & Hcur & Hem & Hcr)
                         | [(He & _ & Hcur & Hem & Hcr) | (_ & Hcur & Hem & Hcr)]]];
        rewrite Hcur; cbn [alert_level trigger_time]; rewrite ?Hcr;
        rewrite (emails_to_of _ _ _ Hem).
      * rewrite Hsec1, Z.sub_diag.
        unfold boss_due in Hfresh.
        destruct (0 >=? resend_interval (classify latency failure_rate) * 5);
          [discriminate Hfresh | auto].
      * rewrite Hsec1. split; [reflexivity | congruence].
      * rewrite Hsec0, He. split; [reflexivity | congruence].
      * rewrite Hsec0. split; [reflexivity | congruence].
    + destruct (open_case _ _ _ Hw Hl') as (w' & out & i & Hret & _ & Hi & Hcase).
      exists w', out. split; [exact Hret |]. cbn zeta in Hcase.
      rewrite !(clock_at_tick now) in Hcase by exact Hnow.
      rewrite (Hnow i Hi) in Hcase.
      destruct Hcase as (Hcur & Hem & Hcr).
      rewrite Hcur. cbn [alert_level trigger_time].
      rewrite (emails_to_of _ _ _ Hem).
      rewrite Hsec1, Z.sub_diag.
      unfold boss_due in Hfresh.
      destruct (0 >=? resend_interval (classify latency failure_rate) * 5);
        [discriminate Hfresh | auto].
Qed.

Lemma boss_email_iff_old_witness :
  exists w' out,
    returns (handle_alerts (600 # 1) (1 # 100))
      (world_at 300000000 (Some (mkAlert P2 1000000 290000000))) w' out /\
    match current_alert w' with
    | None => emails_to secondary_recipient out = []
    | Some a' =>
        emails_to secondary_recipient out =
        (if 300000000 - trigger_time a' >=? resend_interval (alert_level a') * 5
         then [alert_level a'] else []) /\
        (created out <> [] -> emails_to secondary_recipient out = [])
    end.
Proof.
  apply (boss_email_iff_old (600 # 1) (1 # 100) 300000000
           (world_at 300000000 (Some (mkAlert P2 1000000 290000000)))).
  - intros a Ha. injection Ha as <-. discriminate.
  - intros i Hi. reflexivity.
Defined.
